(** * Firmware update orchestration of [redfish-core/lib/update_service.hpp]

    A shallow embedding of the update session (single-flight flag, the two
    D-Bus matchers and the availability timer), of the task callback that
    follows an accepted image, of the SimpleUpdate URI splitting and of the
    multipart request validation, followed by the properties proved about
    them. *)

From Stdlib Require Import String Ascii List ZArith NArith Bool Lia Arith.
From Stdlib Require Import Strings.Byte DecimalString.
Import ListNotations.

Open Scope string_scope.
Open Scope list_scope.

(* ================================================================= *)
(** ** std::string / boost primitives used by the source *)

Module Str.

(** [s.ends_with(x)]: [x] is not longer than [s] and the last
    [x.size()] characters of [s] compare equal to [x]. *)
Definition ends_with (s x : string) : bool :=
  (String.length x <=? String.length s)%nat &&
  String.eqb (substring (String.length s - String.length x)
                        (String.length x) s) x.

(** [s.starts_with(x)]. *)
Definition starts_with (s x : string) : bool := prefix x s.

(** [s.find(c)]: index of the first [c]; [None] stands for [npos]. *)
Fixpoint find (c : ascii) (s : string) : option nat :=
  match s with
  | EmptyString => None
  | String d rest =>
      if Ascii.eqb d c then Some 0
      else match find c rest with
           | Some i => Some (S i)
           | None => None
           end
  end.

(** [s.substr(pos)]: throws [std::out_of_range] (here [None]) when
    [pos > s.size()], otherwise the characters from [pos] on. *)
Definition substr (pos : nat) (s : string) : option string :=
  if (String.length s <? pos)%nat then None
  else Some (substring pos (String.length s - pos) s).

(** [s.substr(pos, n)]: same bound on [pos]; the count is clipped. *)
Definition substr_n (pos n : nat) (s : string) : option string :=
  if (String.length s <? pos)%nat then None
  else Some (substring pos (Nat.min n (String.length s - pos)) s).

Definition upper_char (c : ascii) : ascii :=
  let n := nat_of_ascii c in
  if ((97 <=? n) && (n <=? 122))%nat then ascii_of_nat (n - 32) else c.

(** [boost::to_upper] in the classic locale. *)
Fixpoint to_upper (s : string) : string :=
  match s with
  | EmptyString => EmptyString
  | String c rest => String (upper_char c) (to_upper rest)
  end.

(** [boost::iequals]: equality up to case. *)
Definition iequals (a b : string) : bool :=
  String.eqb (to_upper a) (to_upper b).

(** [std::to_string] on an unsigned index. *)
Definition to_string (n : nat) : string :=
  NilEmpty.string_of_uint (Nat.to_uint n).

End Str.

(* ================================================================= *)
(** ** Client-facing messages and the response object *)

(** Modelled from the spec: the [messages::*] helpers of
    [error_messages.hpp] are not part of this translation unit; each call
    is recorded as one structured message, its arguments in call order,
    appended to the response (or to the task's message log). *)
Inductive Message : Type :=
| InternalError
| ServiceTemporarilyUnavailable (retryAfter : string)
| InvalidUpload (url reason : string)
| ResourceAlreadyExists (type prop value : string)
| ResourceExhaustion (url : string)
| PropertyValueFormatError (a b : string)
| PropertyValueNotInList (a b : string)
| PropertyMissing (name : string)
| ActionParameterValueTypeError (value param action : string)
| ActionParameterNotSupported (param action : string)
| Success
| TaskAborted (index : string)
| TaskPaused (index : string)
| TaskCompletedOK (index : string)
| TaskProgressChanged (index : string) (percent : Z).

Inductive HttpStatus : Type := bad_request | accepted.

(** [crow::Response] as far as this file touches it: the status set by
    [res.result(...)] and the messages written through [messages::*]. *)
Record Response : Type := mkResponse {
  result : option HttpStatus;
  resMessages : list Message
}.

Definition emptyResponse : Response := mkResponse None [].

Definition addMessage (m : Message) (res : Response) : Response :=
  mkResponse (result res) (resMessages res ++ [m]).

(** [if (asyncResp) { messages::...(asyncResp->res); }] *)
Definition addMessageIf (m : Message) (asyncResp : option Response)
  : option Response :=
  option_map (addMessage m) asyncResp.

(** [boost::system::error_code] as the callbacks test it. *)
Inductive error_code : Type :=
| ec_success
| ec_operation_aborted
| ec_other (value : Z).

Definition ec_failed (ec : error_code) : bool :=
  match ec with
  | ec_success => false
  | _ => true
  end.

Definition ec_is_aborted (ec : error_code) : bool :=
  match ec with
  | ec_operation_aborted => true
  | _ => false
  end.

(* ================================================================= *)
(** ** D-Bus values *)

(** The alternatives of [dbus::utility::DbusVariantType] that the
    callbacks distinguish; [uint8_t] is a [Byte.byte]. *)
Inductive DbusVariantType : Type :=
| VString (s : string)
| VUint8 (b : Byte.byte)
| VBool (b : bool)
| VInt64 (z : Z)
| VUint32 (n : N).

Definition DBusPropertiesMap : Type := list (string * DbusVariantType).

(** [std::get_if<std::string>] and [std::get_if<uint8_t>]. *)
Definition get_if_string (v : DbusVariantType) : option string :=
  match v with
  | VString s => Some s
  | _ => None
  end.

Definition get_if_uint8 (v : DbusVariantType) : option Byte.byte :=
  match v with
  | VUint8 b => Some b
  | _ => None
  end.

(** The property loops of the task callback:
    [for (property : values) if (property.first == key)
       { p = get_if<T>(&property.second); if (p == nullptr) <bail out> }].
    [None] is the bail-out; [Some cur] the pointer after the loop. *)
Fixpoint scanProperty {A : Type} (get : DbusVariantType -> option A)
    (key : string) (values : DBusPropertiesMap) (cur : option A)
  : option (option A) :=
  match values with
  | [] => Some cur
  | (k, v) :: rest =>
      if String.eqb k key then
        match get v with
        | None => None
        | Some a => scanProperty get key rest (Some a)
        end
      else scanProperty get key rest cur
  end.

(* ================================================================= *)
(** ** The task created once the image is accepted *)

Module Task.

(** Modelled from the spec: [task::completed] of [task.hpp]. *)
Definition completed : bool := true.

Definition hours (n : Z) : Z := (n * 3600)%Z.
Definition minutes (n : Z) : Z := (n * 60)%Z.

(** The fields of [task::TaskData] the callback reads and writes;
    [timer] is the duration (seconds) of the last [extendTimer]. *)
Record TaskData : Type := mkTask {
  index : nat;
  state : string;
  status : string;
  percentComplete : Z;
  messages : list Message;
  timer : Z
}.

Definition set_state (v : string) (t : TaskData) : TaskData :=
  mkTask (index t) v (status t) (percentComplete t) (messages t) (timer t).
Definition set_status (v : string) (t : TaskData) : TaskData :=
  mkTask (index t) (state t) v (percentComplete t) (messages t) (timer t).
Definition set_percentComplete (v : Z) (t : TaskData) : TaskData :=
  mkTask (index t) (state t) (status t) v (messages t) (timer t).
Definition emplace_back (m : Message) (t : TaskData) : TaskData :=
  mkTask (index t) (state t) (status t) (percentComplete t)
         (messages t ++ [m]) (timer t).
Definition extendTimer (d : Z) (t : TaskData) : TaskData :=
  mkTask (index t) (state t) (status t) (percentComplete t)
         (messages t) d.

Definition ifaceActivation : string :=
  "xyz.openbmc_project.Software.Activation".
Definition ifaceActivationProgress : string :=
  "xyz.openbmc_project.Software.ActivationProgress".

(** The lambda handed to [task::TaskData::createTask] in
    [softwareInterfaceAdded]; [msg] is the decoded
    [PropertiesChanged] payload [(iface, values)]. *)
Definition callback (ec2 : error_code)
    (msg : string * DBusPropertiesMap) (taskData : TaskData)
  : bool * TaskData :=
  if ec_failed ec2 then (completed, taskData)
  else
    let idx := Str.to_string (index taskData) in
    let '(iface, values) := msg in
    if String.eqb iface ifaceActivation then
      match scanProperty get_if_string "Activation" values None with
      | None => (completed, emplace_back InternalError taskData)
      | Some None => (negb completed, taskData)
      | Some (Some st) =>
          if Str.ends_with st "Invalid" || Str.ends_with st "Failed" then
            (completed,
             emplace_back (TaskAborted idx)
               (set_status "Warning" (set_state "Exception" taskData)))
          else if Str.ends_with st "Staged" then
            (negb completed,
             extendTimer (hours 5)
               (emplace_back (TaskPaused idx)
                  (set_state "Stopping" taskData)))
          else if Str.ends_with st "Active" then
            (completed,
             set_state "Completed"
               (emplace_back (TaskCompletedOK idx) taskData))
          else (negb completed, taskData)
      end
    else if String.eqb iface ifaceActivationProgress then
      match scanProperty get_if_uint8 "Progress" values None with
      | None => (completed, emplace_back InternalError taskData)
      | Some None => (negb completed, taskData)
      | Some (Some progress) =>
          let p := Z.of_N (Byte.to_N progress) in
          (negb completed,
           extendTimer (minutes 5)
             (emplace_back (TaskProgressChanged idx p)
                (set_percentComplete p taskData)))
      end
    else (negb completed, taskData).

(** A stream of signals delivered to one task: the match stops
    calling back once the callback reported [completed]. *)
Fixpoint deliver (signals : list (error_code * (string * DBusPropertiesMap)))
    (taskData : TaskData) : bool * TaskData :=
  match signals with
  | [] => (negb completed, taskData)
  | (ec, msg) :: rest =>
      let '(done, t') := callback ec msg taskData in
      if done then (done, t') else deliver rest t'
  end.

(** Modelled from the spec: a task starts in [Running] with status
    [OK]; [task->startTimer(std::chrono::minutes(5))] arms its
    deadline. *)
Definition started (i : nat) : TaskData :=
  mkTask i "Running" "OK" 0
         [] (minutes 5).

(** Signals and outcomes named for the statements below. *)
Definition activationSignal (st : string) : string * DBusPropertiesMap :=
  (ifaceActivation, [("Activation", VString st)]).


Definition activeValue : string :=
  "xyz.openbmc_project.Software.Activation.Activations.Active".
Definition stagedValue : string :=
  "xyz.openbmc_project.Software.Activation.Activations.Staged".

Definition onCompleted (t : TaskData) : TaskData :=
  set_state "Completed"
    (emplace_back (TaskCompletedOK (Str.to_string (index t))) t).

Definition onStaged (t : TaskData) : TaskData :=
  extendTimer (hours 5)
    (emplace_back (TaskPaused (Str.to_string (index t)))
       (set_state "Stopping" t)).

Definition onFailed (t : TaskData) : TaskData :=
  emplace_back (TaskAborted (Str.to_string (index t)))
    (set_status "Warning" (set_state "Exception" t)).


End Task.

(* ================================================================= *)
(** ** The process-wide update session *)

Module Session.

(** [sdbusplus::bus::match_t]: the filter string it was opened with. *)
Record match_t : Type := mkMatch { rule : string }.

(** [boost::asio::steady_timer]: the armed duration in seconds. *)
Record steady_timer : Type := mkTimer { expires_after : Z }.

(** The four file-level statics. *)
Record t : Type := mkSession {
  fwUpdateMatcher : option match_t;
  fwUpdateErrorMatcher : option match_t;
  fwUpdateInProgress : bool;
  fwAvailableTimer : option steady_timer
}.

(** Static initialisation: null pointers and [false]. *)
Definition initial : t := mkSession None None false None.

Definition softwareRule : string :=
  "interface='org.freedesktop.DBus.ObjectManager',type='signal',"
  ++ "member='InterfacesAdded',path='/xyz/openbmc_project/software'".

Definition loggingRule : string :=
  "interface='org.freedesktop.DBus.ObjectManager',type='signal',"
  ++ "member='InterfacesAdded',"
  ++ "path='/xyz/openbmc_project/logging'".

Definition cleanUp (s : t) : t :=
  mkSession None None false (fwAvailableTimer s).

(** [fwAvailableTimer = nullptr;] *)
Definition resetTimer (s : t) : t :=
  mkSession (fwUpdateMatcher s) (fwUpdateErrorMatcher s)
            (fwUpdateInProgress s) None.

(** [fwUpdateInProgress = false;] *)
Definition clearInProgress (s : t) : t :=
  mkSession (fwUpdateMatcher s) (fwUpdateErrorMatcher s)
            false (fwAvailableTimer s).

(** [monitorForSoftwareAvailable(asyncResp, req, url, timeoutTimeSeconds)]
    up to its return; the callbacks it registers are the functions
    below. *)
Definition monitorForSoftwareAvailable (asyncResp : option Response)
    (timeoutTimeSeconds : Z) (s : t) : option Response * t :=
  if fwUpdateInProgress s then
    (addMessageIf (ServiceTemporarilyUnavailable "30") asyncResp, s)
  else
    (asyncResp,
     mkSession (Some (mkMatch softwareRule))
               (Some (mkMatch loggingRule))
               true
               (Some (mkTimer timeoutTimeSeconds))).

Definition defaultTimeout : Z := 25.

(** The handler given to [fwAvailableTimer->async_wait]. *)
Definition timerHandler (ec : error_code) (asyncResp : option Response)
    (s : t) : option Response * t :=
  let s' := cleanUp s in
  if ec_is_aborted ec then (asyncResp, s')
  else if ec_failed ec then (asyncResp, s')
  else (addMessageIf InternalError asyncResp, s').

(** The loop of [softwareInterfaceAdded]: does the signal carry the
    Activation interface (so that [getDbusObject] is issued)? *)
Fixpoint softwareInterfaceAdded
    (interfacesProperties : list (string * DBusPropertiesMap)) : bool :=
  match interfacesProperties with
  | [] => false
  | (name, _) :: rest =>
      if String.eqb name "xyz.openbmc_project.Software.Activation"
      then true
      else softwareInterfaceAdded rest
  end.

Definition taskMatchRule (objPath : string) : string :=
  "type='signal',interface='org.freedesktop.DBus.Properties',"
  ++ "member='PropertiesChanged',path='" ++ objPath ++ "'".

(** What the [getDbusObject] callback hands to the rest of the
    system: the activation request and the task it created. *)
Record Handoff : Type := mkHandoff {
  activated : option (string * string);
  created : option (Task.TaskData * string)
}.

Definition noHandoff : Handoff := mkHandoff None None.

(** Modelled from the spec: [task->populateResp] of [task.hpp] turns
    the response into the accepted-task answer carrying the polling
    location. *)
Definition populateResp (res : Response) : Response :=
  mkResponse (Some accepted) (resMessages res).

(** The callback of [getDbusObject] inside [softwareInterfaceAdded];
    [objInfo] lists the owning services, [nextIndex] is the index
    [createTask] assigns. *)
Definition objectInfoHandler (ec : error_code)
    (objInfo : list (string * list string)) (objPath : string)
    (nextIndex : nat) (asyncResp : option Response) (s : t)
  : option Response * t * Handoff :=
  if ec_failed ec then
    (addMessageIf InternalError asyncResp, cleanUp s, noHandoff)
  else
    match objInfo with
    | [(service, _)] =>
        let s1 := resetTimer s in
        let created :=
          match asyncResp with
          | Some _ => Some (Task.started nextIndex, taskMatchRule objPath)
          | None => None
          end in
        (option_map populateResp asyncResp, clearInProgress s1,
         mkHandoff (Some (objPath, service)) created)
    | _ =>
        (addMessageIf InternalError asyncResp, cleanUp s, noHandoff)
    end.

(** The [if / else if] chain on the log entry's message id. *)
Definition classify (url type : string) (res : Response) : Response :=
  if String.eqb type
       "xyz.openbmc_project.Software.Image.Error.UnTarFailure" then
    addMessage (InvalidUpload url "Invalid archive") res
  else if String.eqb type
       "xyz.openbmc_project.Software.Image.Error.ManifestFileFailure" then
    addMessage (InvalidUpload url "Invalid manifest") res
  else if String.eqb type
       "xyz.openbmc_project.Software.Image.Error.ImageFailure" then
    addMessage (InvalidUpload url "Invalid image format") res
  else if String.eqb type
       "xyz.openbmc_project.Software.Version.Error.AlreadyExists" then
    addMessage (ResourceAlreadyExists "UpdateService" "Version"
                                      "uploaded version")
      (addMessage (InvalidUpload url "Image version already exists") res)
  else if String.eqb type
       "xyz.openbmc_project.Software.Image.Error.BusyFailure" then
    addMessage (ResourceExhaustion url) res
  else addMessage InternalError res.

(** Inner loop of the error matcher over the properties of one
    [Logging.Entry]; the flag tells that the callback returned. *)
Fixpoint scanMessages (url : string) (values : DBusPropertiesMap)
    (res : Response) (s : t) : bool * (Response * t) :=
  match values with
  | [] => (false, (res, s))
  | (name, value) :: rest =>
      if negb (String.eqb name "Message") then scanMessages url rest res s
      else
        match get_if_string value with
        | None => (true, (res, s))
        | Some type =>
            scanMessages url rest (classify url type res) (resetTimer s)
        end
  end.

(** The callback of [fwUpdateErrorMatcher].  It dereferences
    [asyncResp] unconditionally, so it is given the response itself. *)
Fixpoint errorLogAdded (url : string)
    (interfacesProperties : list (string * DBusPropertiesMap))
    (res : Response) (s : t) : Response * t :=
  match interfacesProperties with
  | [] => (res, s)
  | (name, values) :: rest =>
      if String.eqb name "xyz.openbmc_project.Logging.Entry" then
        let '(returned, (res', s')) := scanMessages url values res s in
        if returned then (res', s') else errorLogAdded url rest res' s'
      else errorLogAdded url rest res s
  end.

(** Everything in the file that touches the session. *)
Inductive Event : Type :=
| Monitor (asyncResp : option Response) (timeoutTimeSeconds : Z)
| TimerHandler (ec : error_code) (asyncResp : option Response)
| ObjectInfo (ec : error_code) (objInfo : list (string * list string))
             (objPath : string) (nextIndex : nat)
             (asyncResp : option Response)
| ErrorLog (url : string)
           (interfacesProperties : list (string * DBusPropertiesMap))
           (res : Response)
| UploadFailed
| DownloadFailed.

Definition step (e : Event) (s : t) : t :=
  match e with
  | Monitor asyncResp timeout =>
      snd (monitorForSoftwareAvailable asyncResp timeout s)
  | TimerHandler ec asyncResp => snd (timerHandler ec asyncResp s)
  | ObjectInfo ec objInfo objPath nextIndex asyncResp =>
      snd (fst (objectInfoHandler ec objInfo objPath nextIndex asyncResp s))
  | ErrorLog url ifaces res => snd (errorLogAdded url ifaces res s)
  | UploadFailed => cleanUp s
  | DownloadFailed => cleanUp s
  end.

Fixpoint run (trace : list Event) (s : t) : t :=
  match trace with
  | [] => s
  | e :: rest => run rest (step e s)
  end.

Inductive reachable : t -> Prop :=
| reach_initial : reachable initial
| reach_step e s : reachable s -> reachable (step e s).

(** The invariant as the specification words it. *)
Definition spec_invariant (s : t) : Prop :=
  fwUpdateInProgress s = true <->
  (fwUpdateMatcher s <> None \/ fwUpdateErrorMatcher s <> None \/
   fwAvailableTimer s <> None).

Definition isSome {A : Type} (o : option A) : bool :=
  match o with Some _ => true | None => false end.

(** What the code maintains: the two matchers live and die together,
    and the flag is only raised while they are open. *)
Definition invariant (s : t) : Prop :=
  isSome (fwUpdateMatcher s) = isSome (fwUpdateErrorMatcher s) /\
  (fwUpdateInProgress s = true -> isSome (fwUpdateMatcher s) = true).

(** The session right after a first [monitorForSoftwareAvailable]
    with the default timeout. *)
Definition armed : t :=
  snd (monitorForSoftwareAvailable (Some emptyResponse) defaultTimeout
                                   initial).

Definition alreadyExists : string :=
  "xyz.openbmc_project.Software.Version.Error.AlreadyExists".

Definition loggingEntry : string := "xyz.openbmc_project.Logging.Entry".

(** No property of the list is called [Message]. *)
Definition noMessage (values : DBusPropertiesMap) : bool :=
  forallb (fun kv => negb (String.eqb (fst kv) "Message")) values.

(** The released state the specification expects after cleanup. *)
Definition released (s : t) : Prop :=
  fwUpdateInProgress s = false /\ fwUpdateMatcher s = None /\
  fwUpdateErrorMatcher s = None /\ fwAvailableTimer s = None.

End Session.

(* ================================================================= *)
(** ** Request handlers: shared world *)

(** What a handler can change: the session statics, the response of the
    request being served, the files written under [/tmp/images] and the
    fire-and-forget bus calls issued. *)
Record World : Type := mkWorld {
  session : Session.t;
  res : Response;
  files : list string;
  busCalls : list (string * list string)
}.

Definition withRes (r : Response) (w : World) : World :=
  mkWorld (session w) r (files w) (busCalls w).

Definition respond (m : Message) (w : World) : World :=
  withRes (addMessage m (res w)) w.

Definition idle : World := mkWorld Session.initial emptyResponse [] [].

(** [monitorForSoftwareAvailable] called from a handler, where
    [asyncResp] is the live response of the request. *)
Definition monitor (timeoutTimeSeconds : Z) (w : World) : World :=
  let '(asyncResp, s) :=
    Session.monitorForSoftwareAvailable (Some (res w)) timeoutTimeSeconds
                                        (session w) in
  mkWorld s
          (match asyncResp with Some r => r | None => res w end)
          (files w) (busCalls w).

(** [setApplyTime(asyncResp, applyTime)] up to its return: the
    [setProperty] request is queued, its completion comes later. *)
Definition setApplyTime (applyTime : string) (w : World) : World :=
  let request v :=
    mkWorld (session w) (res w) (files w)
            (busCalls w ++ [("RequestedApplyTime", [v])]) in
  if String.eqb applyTime "Immediate" then
    request
      "xyz.openbmc_project.Software.ApplyTime.RequestedApplyTimes.Immediate"
  else if String.eqb applyTime "OnReset" then
    request
      "xyz.openbmc_project.Software.ApplyTime.RequestedApplyTimes.OnReset"
  else respond (PropertyValueNotInList applyTime "ApplyTime") w.

(** How a handler ends: it returns, or a C++ exception leaves it. *)
Inductive Outcome : Type :=
| Returned (w : World)
| Threw (what : string) (w : World).

Definition worldOf (o : Outcome) : World :=
  match o with
  | Returned w => w
  | Threw _ w => w
  end.

(** What the file system makes of one [uploadImageFile]: the stream
    cannot open the file (then there is no file for
    [std::filesystem::permissions], which throws); the file is created
    and [permissions] throws; or the body is streamed, [reached]
    characters of it get into the file and [bad] is [out.bad()]
    afterwards. *)
Inductive FileIO : Type :=
| OpenFailed
| PermissionsFailed
| Streamed (reached : nat) (bad : bool).

(** What [uploadImageFile] leaves under [/tmp/images]: nothing, an
    empty file, or the leading [reached] characters of the body. *)
Definition stored (io : FileIO) (body : string) : list string :=
  match io with
  | OpenFailed => []
  | PermissionsFailed => [EmptyString]
  | Streamed reached _ => [substring 0 reached body]
  end.

Definition streamBad (io : FileIO) : bool :=
  match io with
  | Streamed _ bad => bad
  | _ => false
  end.

(** The whole body gets into the file and the stream stays good. *)
Definition complete (body : string) : FileIO :=
  Streamed (String.length body) false.

(** [uploadImageFile(res, body)]. *)
Definition uploadImageFile (io : FileIO) (body : string) (w : World)
  : Outcome :=
  let w1 :=
    mkWorld (session w) (res w) (files w ++ stored io body) (busCalls w) in
  match io with
  | OpenFailed => Threw "std::filesystem::filesystem_error" w1
  | PermissionsFailed => Threw "std::filesystem::filesystem_error" w1
  | Streamed _ bad =>
      if bad then
        Returned
          (mkWorld (Session.cleanUp (session w1))
                   (addMessage InternalError (res w1))
                   (files w1) (busCalls w1))
      else Returned w1
  end.

(* ================================================================= *)
(** ** SimpleUpdate *)

Module SimpleUpdate.

Definition action : string := "UpdateService.SimpleUpdate".

Inductive Split : Type :=
| OutOfRange
| Rejected (m : Message)
| Split_ok (tftpServer fwFile : string).

(** First half of the handler: derive the protocol from the URI when
    [TransferProtocol] is absent.  [inl] is an early exit. *)
Definition deriveProtocol (transferProtocol : option string)
    (imageURI : string) : Split + (string * string) :=
  match transferProtocol with
  | Some p => inr (p, imageURI)
  | None =>
      match Str.find ":" imageURI with
      | None =>
          inl (Rejected
                 (ActionParameterValueTypeError imageURI "ImageURI" action))
      | Some separator =>
          if (String.length imageURI <? separator + 1)%nat then
            inl (Rejected
                   (ActionParameterValueTypeError imageURI "ImageURI"
                                                  action))
          else
            match Str.substr_n 0 separator imageURI with
            | None => inl OutOfRange
            | Some proto =>
                match Str.substr (separator + 3) imageURI with
                | None => inl OutOfRange
                | Some rest => inr (Str.to_upper proto, rest)
                end
            end
      end
  end.

(** The whole parameter validation of the route handler, up to the
    call of [monitorForSoftwareAvailable]. *)
Definition splitImageURI (transferProtocol : option string)
    (imageURI : string) : Split :=
  match deriveProtocol transferProtocol imageURI with
  | inl early => early
  | inr (proto, uri) =>
      if negb (String.eqb proto "TFTP") then
        Rejected (ActionParameterNotSupported "TransferProtocol" action)
      else
        match Str.find "/" uri with
        | None =>
            Rejected (ActionParameterValueTypeError uri "ImageURI" action)
        | Some separator =>
            if (String.length uri <? separator + 1)%nat then
              Rejected (ActionParameterValueTypeError uri "ImageURI" action)
            else
              match Str.substr_n 0 separator uri,
                    Str.substr (separator + 1) uri with
              | Some server, Some file => Split_ok server file
              | _, _ => OutOfRange
              end
        end
  end.

(** The route handler after [readJsonAction] succeeded. *)
Definition post (transferProtocol : option string) (imageURI : string)
    (w : World) : Outcome :=
  match splitImageURI transferProtocol imageURI with
  | OutOfRange => Threw "std::out_of_range" w
  | Rejected m => Returned (respond m w)
  | Split_ok tftpServer fwFile =>
      let w1 := respond Success (monitor 600 w) in
      Returned
        (mkWorld (session w1) (res w1) (files w1)
                 (busCalls w1 ++ [("DownloadViaTFTP", [fwFile; tftpServer])]))
  end.

End SimpleUpdate.

(* ================================================================= *)
(** ** Multipart upload *)

Module Multipart.

(** [FormPart] of [multipart_parser.hpp]: header fields and body. *)
Record FormPart : Type := mkFormPart {
  fields : list (string * string);
  content : string
}.

(** [formpart.fields.find(name)]: first field of that name, names
    compared without regard to case. *)
Fixpoint findField (name : string) (fs : list (string * string))
  : option string :=
  match fs with
  | [] => None
  | (k, v) :: rest =>
      if Str.iequals k name then Some v else findField name rest
  end.

(** What [nlohmann::json::parse] followed by [json_util::readJson] for
    [Targets] (required) and [@Redfish.OperationApplyTime] (optional)
    makes of a part's content. *)
Inductive ReadResult : Type :=
| ParseThrows
| ReadFailed (errors : list Message)
| ReadOk (targets : list string) (operationApplyTime : option string).

(** The locals of [updateMultipartContext]. *)
Record Locals : Type := mkLocals {
  uploadData : option string;
  applyTime : string;
  targetFound : bool
}.

Definition initLocals : Locals := mkLocals None "OnReset" false.

(** How a loop body leaves: on to the next round, out of the function
    with the response as written so far, or by an exception. *)
Inductive Flow : Type :=
| Continue (l : Locals)
| Return (r : Response)
| Throw.

Definition bmc : string := "/redfish/v1/Managers/bmc".

(** [crow::Request] as the handler reads it, together with what
    [MultipartParser::parse] makes of its body ([None] is any
    [ParserError] other than [PARSER_SUCCESS]). *)
Record Request : Type := mkRequest {
  contentType : string;
  body : string;
  mime_fields : option (list FormPart)
}.

Section Decoders.

(** [boost::beast::http::param_list] over the tail of the header
    value, and the JSON decoding above: both live outside this
    file. *)
Variable param_list : string -> list (string * string).
Variable readUpdateParameters : string -> ReadResult.

(** The loop over the parameters of one Content-Disposition. *)
Fixpoint scanParams (formContent : string)
    (params : list (string * string)) (r : Response) (l : Locals)
  : Flow :=
  match params with
  | [] => Continue l
  | (pname, pvalue) :: rest =>
      if negb (String.eqb pname "name") || String.eqb pvalue EmptyString
      then
        scanParams formContent rest r l
      else if String.eqb pvalue "UpdateParameters" then
        match readUpdateParameters formContent with
        | ParseThrows => Throw
        | ReadFailed errors =>
            Return (fold_left (fun acc m => addMessage m acc) errors r)
        | ReadOk targets operationApplyTime =>
            match targets with
            | [target] =>
                if negb (String.eqb target bmc) then
                  Return (addMessage
                            (PropertyValueNotInList "Targets/0" target) r)
                else
                  scanParams formContent rest r
                    (mkLocals (uploadData l)
                              (match operationApplyTime with
                               | Some a => a
                               | None => applyTime l
                               end)
                              true)
            | _ =>
                Return (addMessage
                          (PropertyValueFormatError "Targets" EmptyString) r)
            end
        end
      else if String.eqb pvalue "UpdateFile" then
        scanParams formContent rest r
          (mkLocals (Some formContent) (applyTime l) (targetFound l))
      else scanParams formContent rest r l
  end.

(** The loop over [parser.mime_fields]. *)
Fixpoint scanParts (parts : list FormPart) (r : Response) (l : Locals)
  : Flow :=
  match parts with
  | [] => Continue l
  | formpart :: rest =>
      match findField "Content-Disposition" (fields formpart) with
      | None => Return r
      | Some value =>
          match Str.find ";" value with
          | None => scanParts rest r l
          | Some index =>
              let tail :=
                substring index (String.length value - index) value in
              match scanParams (content formpart) (param_list tail) r l
              with
              | Continue l' => scanParts rest r l'
              | out => out
              end
          end
      end
  end.

(** [updateMultipartContext(asyncResp, parser)]; [io] is what
    [uploadImageFile] meets in the file system. *)
Definition updateMultipartContext (io : FileIO) (parts : list FormPart)
    (w : World) : Outcome :=
  match scanParts parts (res w) initLocals with
  | Throw => Threw "nlohmann::json::parse_error" w
  | Return r => Returned (withRes r w)
  | Continue l =>
      match uploadData l with
      | None => Returned (respond (PropertyMissing "UpdateFile") w)
      | Some data =>
          if negb (targetFound l) then
            Returned (respond (PropertyMissing "targets") w)
          else
            uploadImageFile io data (setApplyTime (applyTime l) w)
      end
  end.

(** [handleUpdateServicePost] once [setUpRedfishRoute] let the
    request through. *)
Definition handleUpdateServicePost (io : FileIO) (req : Request)
    (w : World) : Outcome :=
  if Str.iequals (contentType req) "application/octet-stream" then
    uploadImageFile io (body req) (monitor Session.defaultTimeout w)
  else if Str.starts_with (contentType req) "multipart/form-data" then
    let w1 := monitor Session.defaultTimeout w in
    match mime_fields req with
    | None => Returned (respond InternalError w1)
    | Some parts => updateMultipartContext io parts w1
    end
  else
    Returned
      (withRes (mkResponse (Some bad_request) (resMessages (res w))) w).

End Decoders.

(** Sample requests and decoders for them: the decoders agree with
    Boost and nlohmann on exactly these literal inputs. *)
Definition quoted (s : string) : string :=
  String (ascii_of_nat 34) s ++ String (ascii_of_nat 34) EmptyString.

Definition disposition (name : string) : string :=
  "form-data; name=" ++ quoted name.

Definition targetsJson (targets : list string) : string :=
  "{" ++ quoted "Targets" ++ ":["
      ++ String.concat "," (map quoted targets) ++ "]}".

Definition sample_param_list (tail : string) : list (string * string) :=
  if String.eqb tail ("; name=" ++ quoted "UpdateParameters") then
    [("name", "UpdateParameters")]
  else if String.eqb tail ("; name=" ++ quoted "UpdateFile") then
    [("name", "UpdateFile")]
  else [].

Definition system : string := "/redfish/v1/Systems/system".

Definition sample_readUpdateParameters (c : string) : ReadResult :=
  if String.eqb c (targetsJson [bmc]) then ReadOk [bmc] None
  else if String.eqb c (targetsJson [bmc; system]) then
    ReadOk [bmc; system] None
  else if String.eqb c (targetsJson [system]) then ReadOk [system] None
  else if String.eqb c (targetsJson []) then ReadOk [] None
  else ParseThrows.

Definition parametersPart (targets : list string) : FormPart :=
  mkFormPart [("Content-Disposition", disposition "UpdateParameters")]
             (targetsJson targets).

Definition filePart (image : string) : FormPart :=
  mkFormPart [("Content-Disposition", disposition "UpdateFile");
              ("Content-Type", "application/octet-stream")]
             image.

(** A part that carries no Content-Disposition header at all. *)
Definition barePart (image : string) : FormPart :=
  mkFormPart [("Content-Type", "application/octet-stream")] image.

Definition multipartRequest (parts : list FormPart) : Request :=
  mkRequest "multipart/form-data; boundary=----x" EmptyString (Some parts).

(** The handler on a sample multipart request, from the idle world. *)
Definition samplePost (parts : list FormPart) : Outcome :=
  handleUpdateServicePost sample_param_list sample_readUpdateParameters
    (complete "image") (multipartRequest parts) idle.

(** Answered with [m] alone, nothing written, session armed. *)
Definition rejectedArmed (m : Message) : Outcome :=
  Returned (mkWorld Session.armed (mkResponse None [m]) [] []).

End Multipart.

(* ================================================================= *)
(** ** Apply time: the value sent and the value read back *)

Module ApplyTime.

Definition immediate : string :=
  "xyz.openbmc_project.Software.ApplyTime.RequestedApplyTimes.Immediate".

Definition onReset : string :=
  "xyz.openbmc_project.Software.ApplyTime.RequestedApplyTimes.OnReset".

(** The [getProperty] callback of the GET handler of
    [/redfish/v1/UpdateService/]: [field] is
    [HttpPushUriOptions/HttpPushUriApplyTime/ApplyTime] of the answer. *)
Definition getHandler (ec : error_code) (applyTime : string)
    (r : Response) (field : option string) : Response * option string :=
  if ec_failed ec then (addMessage InternalError r, field)
  else if String.eqb applyTime immediate then (r, Some "Immediate")
  else if String.eqb applyTime onReset then (r, Some "OnReset")
  else (r, field).

(** The completion of the [setProperty] call made by [setApplyTime]. *)
Definition setHandler (ec : error_code) (r : Response) : Response :=
  if ec_failed ec then addMessage InternalError r
  else addMessage Success r.

(** What [json_util::readJson] makes of one optional key. *)
Inductive Read (A : Type) : Type :=
| ReadError (errors : list Message)
| Absent
| Present (a : A).

Arguments ReadError {A} errors.
Arguments Absent {A}.
Arguments Present {A} a.

Definition respondAll (errors : list Message) (w : World) : World :=
  withRes (fold_left (fun acc m => addMessage m acc) errors (res w)) w.

(** The PATCH handler of [/redfish/v1/UpdateService/]: the body is
    read level by level, [HttpPushUriOptions], then
    [HttpPushUriApplyTime], then [ApplyTime]. *)
Definition patch (pushUriOptions : Read (Read (Read string))) (w : World)
  : World :=
  match pushUriOptions with
  | ReadError errors => respondAll errors w
  | Absent => w
  | Present pushUriApplyTime =>
      match pushUriApplyTime with
      | ReadError errors => respondAll errors w
      | Absent => w
      | Present applyTime =>
          match applyTime with
          | ReadError errors => respondAll errors w
          | Absent => w
          | Present a => setApplyTime a w
          end
      end
  end.

End ApplyTime.

(* ================================================================= *)
(** ** Firmware inventory *)

Module Inventory.

(** [s.rfind(c)]: index of the last [c]; [None] stands for [npos]. *)
Fixpoint rfind (c : ascii) (s : string) : option nat :=
  match s with
  | EmptyString => None
  | String d rest =>
      match rfind c rest with
      | Some i => Some (S i)
      | None => if Ascii.eqb d c then Some 0 else None
      end
  end.

(** The members of [asyncResp->res.jsonValue] the inventory code
    writes, with the messages it reports: [internalErrors] counts the
    calls of [messages::internalError], [missing] holds the ids
    reported through [messages::resourceMissingAtURI]. *)
Record Resp : Type := mkResp {
  internalErrors : nat;
  missing : list string;
  jVersion : option string;
  jId : option string;
  jDescription : option string;
  jRelatedItem : list string;
  jRelatedItemCount : option nat;
  jType : option string;
  jName : option string;
  jHealthRollup : option string;
  jUpdateable : option bool
}.

Definition emptyResp : Resp :=
  mkResp 0 [] None None None [] None None None None None.

Definition internalError (r : Resp) : Resp :=
  mkResp (S (internalErrors r)) (missing r) (jVersion r) (jId r)
         (jDescription r) (jRelatedItem r) (jRelatedItemCount r)
         (jType r) (jName r) (jHealthRollup r) (jUpdateable r).

Definition resourceMissingAtURI (swId : string) (r : Resp) : Resp :=
  mkResp (internalErrors r) (missing r ++ [swId]) (jVersion r) (jId r)
         (jDescription r) (jRelatedItem r) (jRelatedItemCount r)
         (jType r) (jName r) (jHealthRollup r) (jUpdateable r).

Definition setVersionId (version swId : string) (r : Resp) : Resp :=
  mkResp (internalErrors r) (missing r) (Some version) (Some swId)
         (jDescription r) (jRelatedItem r) (jRelatedItemCount r)
         (jType r) (jName r) (jHealthRollup r) (jUpdateable r).

Definition setDescription (d : string) (r : Resp) : Resp :=
  mkResp (internalErrors r) (missing r) (jVersion r) (jId r)
         (Some d) (jRelatedItem r) (jRelatedItemCount r)
         (jType r) (jName r) (jHealthRollup r) (jUpdateable r).

(** [relatedItem.emplace_back(item); ...["RelatedItem@odata.count"] =
    relatedItem.size();] *)
Definition addRelatedItem (odataId : string) (r : Resp) : Resp :=
  let items := jRelatedItem r ++ [odataId] in
  mkResp (internalErrors r) (missing r) (jVersion r) (jId r)
         (jDescription r) items (Some (List.length items))
         (jType r) (jName r) (jHealthRollup r) (jUpdateable r).

Definition setStatics (r : Resp) : Resp :=
  mkResp (internalErrors r) (missing r) (jVersion r) (jId r)
         (jDescription r) (jRelatedItem r) (jRelatedItemCount r)
         (Some "#SoftwareInventory.v1_1_0.SoftwareInventory")
         (Some "Software Inventory") (Some "OK") (Some false).

Section Purposes.

(** [sw_util::bmcPurpose] and [sw_util::biosPurpose] of
    [utils/sw_utils.hpp]. *)
Variable bmcPurpose biosPurpose : string.

Definition getRelatedItems (purpose : string) (r : Resp) : Resp :=
  if String.eqb purpose bmcPurpose then
    addRelatedItem "/redfish/v1/Managers/bmc" r
  else if String.eqb purpose biosPurpose then
    addRelatedItem "/redfish/v1/Systems/system/Bios" r
  else r.

(** The callback of [getAllProperties] in [getSoftwareVersion].
    [unpacked] is what [unpackPropertiesNoThrow] made of the property
    list: [None] when it failed, else the [Purpose] and [Version]
    pointers.  The result [None] is a [std::out_of_range] leaving
    [substr]. *)
Definition softwareVersionHandler (ec : error_code)
    (unpacked : option (option string * option string)) (swId : string)
    (r : Resp) : option Resp :=
  if ec_failed ec then Some (internalError r)
  else
    match unpacked with
    | None => Some (internalError r)
    | Some (None, _) => Some (internalError r)
    | Some (Some _, None) => Some (internalError r)
    | Some (Some swInvPurpose, Some version) =>
        let r1 := setVersionId version swId r in
        match rfind "." swInvPurpose with
        | None => Some (internalError r1)
        | Some dot =>
            let endDesc := S dot in
            if (String.length swInvPurpose <=? endDesc)%nat then
              Some (internalError r1)
            else
              match Str.substr endDesc swInvPurpose with
              | None => None
              | Some formatDesc =>
                  Some (getRelatedItems swInvPurpose
                          (setDescription (formatDesc ++ " image") r1))
              end
        end
    end.

End Purposes.

(** [dbus::utility::MapperGetSubTreeResponse]: object path, then the
    services with their interfaces. *)
Definition SubTree : Type :=
  list (string * list (string * list string)).

(** The loop of the [getSubTree] callback: [found], and the
    [(service, path)] pairs handed to [getSwStatus] and
    [getSoftwareVersion], in order. *)
Fixpoint scanSubTree (swId : string) (subtree : SubTree) (found : bool)
    (queries : list (string * string)) : bool * list (string * string) :=
  match subtree with
  | [] => (found, queries)
  | (path, services) :: rest =>
      if negb (Str.ends_with path swId) then
        scanSubTree swId rest found queries
      else
        match services with
        | [] => scanSubTree swId rest found queries
        | (service, _) :: _ =>
            scanSubTree swId rest true (queries ++ [(service, path)])
        end
  end.

(** The [getSubTree] callback of the route
    [/redfish/v1/UpdateService/FirmwareInventory/<str>/]; the second
    component tells whether [getSwUpdatableStatus] was called. *)
Definition subTreeHandler (ec : error_code) (subtree : SubTree)
    (swId : string) (r : Resp)
  : Resp * list (string * string) * bool :=
  if ec_failed ec then (internalError r, [], false)
  else
    let '(found, queries) := scanSubTree swId subtree false [] in
    if negb found then (resourceMissingAtURI swId r, queries, false)
    else (setStatics r, queries, true).

(** The objects of a subtree the route answers for. *)
Definition matches (swId : string)
    (obj : string * list (string * list string)) : bool :=
  Str.ends_with (fst obj) swId &&
  match snd obj with [] => false | _ :: _ => true end.

Definition queryOf (obj : string * list (string * list string))
  : list (string * string) :=
  match snd obj with
  | [] => []
  | (service, _) :: _ => [(service, fst obj)]
  end.

Definition purposeBMC : string :=
  "xyz.openbmc_project.Software.Version.VersionPurpose.BMC".
Definition purposeHost : string :=
  "xyz.openbmc_project.Software.Version.VersionPurpose.Host".

End Inventory.

(* ================================================================= *)
(** ** The gate as the events leave it *)

Module Gate.

Import Session.

(** The session [monitorForSoftwareAvailable] sets up when it admits a
    request with the given timeout. *)
Definition admitted (timeoutTimeSeconds : Z) : t :=
  mkSession (Some (mkMatch softwareRule)) (Some (mkMatch loggingRule))
            true (Some (mkTimer timeoutTimeSeconds)).


(** The five message ids the error matcher knows. *)
Definition knownErrors : list string :=
  ["xyz.openbmc_project.Software.Image.Error.UnTarFailure";
   "xyz.openbmc_project.Software.Image.Error.ManifestFileFailure";
   "xyz.openbmc_project.Software.Image.Error.ImageFailure";
   "xyz.openbmc_project.Software.Version.Error.AlreadyExists";
   "xyz.openbmc_project.Software.Image.Error.BusyFailure"].

End Gate.

(* ================================================================= *)
(** ** Multipart requests: which part is which *)

Module Parts.

Import Multipart.

(** The part has a Content-Disposition whose parameter list, read
    from the first [;] on, contains [name=<n>]. *)
Definition named (param_list : string -> list (string * string))
    (n : string) (p : FormPart) : Prop :=
  exists value index,
    findField "Content-Disposition" (fields p) = Some value /\
    Str.find ";" value = Some index /\
    In ("name", n)
       (param_list (substring index (String.length value - index) value)).

(** What the part loop has established when it holds these locals:
    the upload data is the content of a part named [UpdateFile], and
    [targetFound] was set by a part named [UpdateParameters] whose
    only target is the BMC. *)
Definition justified (param_list : string -> list (string * string))
    (readUpdateParameters : string -> ReadResult)
    (parts : list FormPart) (l : Locals) : Prop :=
  (forall data, uploadData l = Some data ->
     exists p, In p parts /\ named param_list "UpdateFile" p /\
               content p = data) /\
  (targetFound l = true ->
     exists p a, In p parts /\ named param_list "UpdateParameters" p /\
                 readUpdateParameters (content p) = ReadOk [bmc] a).





End Parts.

(* ================================================================= *)
(** ** Firmware inventory: consistency of the related items *)

Module Related.

Import Inventory.

(** [RelatedItem@odata.count] is the size of [RelatedItem], or neither
    member has been written. *)
Definition countConsistent (r : Resp) : Prop :=
  jRelatedItemCount r = Some (List.length (jRelatedItem r)) \/
  (jRelatedItemCount r = None /\ jRelatedItem r = []).

(** A subtree as the mapper answers for two images whose ids share a
    suffix. *)
Definition sampleSubTree : SubTree :=
  [("/xyz/openbmc_project/software/1a2b",
    [("xyz.openbmc_project.Software.BMC.Updater",
      ["xyz.openbmc_project.Software.Version"])]);
   ("/xyz/openbmc_project/software/771a2b",
    [("xyz.openbmc_project.Software.Host.Updater",
      ["xyz.openbmc_project.Software.Version"])]);
   ("/xyz/openbmc_project/software/c0ffee", [])].

End Related.

(* ================================================================= *)
(** ** Error-log events: what the callback meets *)

Module ErrorLog.

Import Session.



(** The two messages of the duplicate-version answer. *)
Definition alreadyExistsMessages (url : string) : list Message :=
  [InvalidUpload url "Image version already exists";
   ResourceAlreadyExists "UpdateService" "Version" "uploaded version"].

End ErrorLog.

(* ================================================================= *)
(** * Properties *)

(** ** Suffix tests *)

Section SuffixFacts.

Local Open Scope string_scope.

Lemma length_app (p x : string) :
  String.length (p ++ x) = String.length p + String.length x.
Proof. induction p as [|c p IH]; simpl; [reflexivity | now rewrite IH]. Qed.

Lemma substring_whole (x : string) :
  substring 0 (String.length x) x = x.
Proof. induction x as [|c x IH]; simpl; [reflexivity | now rewrite IH]. Qed.

Lemma substring_skip (p x : string) (n : nat) :
  substring (String.length p) n (p ++ x) = substring 0 n x.
Proof. induction p as [|c p IH]; simpl; [reflexivity | exact IH]. Qed.

Lemma substring_split (n : nat) : forall s : string,
  n <= String.length s ->
  s = substring 0 n s ++ substring n (String.length s - n) s.
Proof.
  induction n as [|n IH]; intros s Hn.
  - rewrite Nat.sub_0_r, substring_whole. now destruct s.
  - destruct s as [|c s]; simpl in *; [lia|].
    f_equal. apply IH. lia.
Qed.

Lemma app_assoc_string (a b c : string) : (a ++ b) ++ c = a ++ (b ++ c).
Proof. induction a as [|d a IH]; simpl; [reflexivity | now rewrite IH]. Qed.

Lemma app_inj_length (p1 p2 x1 x2 : string) :
  String.length x1 = String.length x2 ->
  p1 ++ x1 = p2 ++ x2 -> x1 = x2.
Proof.
  revert p2. induction p1 as [|c p1 IH]; intros p2 Hlen Heq.
  - destruct p2 as [|d p2]; simpl in *; [assumption|].
    apply (f_equal String.length) in Heq. simpl in Heq.
    rewrite length_app in Heq. lia.
  - destruct p2 as [|d p2]; simpl in *.
    + apply (f_equal String.length) in Heq. simpl in Heq.
      rewrite length_app in Heq. lia.
    + injection Heq as _ Heq. now apply (IH p2).
Qed.

(** [ends_with] is exactly "is of the form prefix ++ suffix". *)
Lemma ends_with_app (p x : string) : Str.ends_with (p ++ x) x = true.
Proof.
  unfold Str.ends_with. rewrite length_app.
  replace (String.length p + String.length x - String.length x)
    with (String.length p) by lia.
  rewrite substring_skip, substring_whole, String.eqb_refl.
  rewrite andb_true_r. apply Nat.leb_le. lia.
Qed.

Lemma ends_with_inv (s x : string) :
  Str.ends_with s x = true -> exists p, s = p ++ x.
Proof.
  unfold Str.ends_with. intros H.
  apply andb_true_iff in H as [Hlen Heq].
  apply Nat.leb_le in Hlen. apply String.eqb_eq in Heq.
  exists (substring 0 (String.length s - String.length x) s).
  pose proof (substring_split (String.length s - String.length x) s) as Hs.
  replace (String.length s - (String.length s - String.length x))
    with (String.length x) in Hs by lia.
  rewrite Heq in Hs. apply Hs. lia.
Qed.

Lemma ends_with_iff (s x : string) :
  Str.ends_with s x = true <-> exists p, s = p ++ x.
Proof.
  split; [apply ends_with_inv|].
  intros [p ->]. apply ends_with_app.
Qed.

(** Two suffixes of the same length are equal or exclude each other. *)
Lemma ends_with_same_length (p a b : string) :
  String.length a = String.length b ->
  Str.ends_with (p ++ a) b = String.eqb a b.
Proof.
  intros Hlen. destruct (String.eqb_spec a b) as [->|Hne].
  - apply ends_with_app.
  - destruct (Str.ends_with (p ++ a) b) eqn:E; [|reflexivity].
    apply ends_with_inv in E as [p' E].
    apply app_inj_length in E; [contradiction | assumption].
Qed.

(** A suffix stays one when its first character is dropped. *)
Lemma ends_with_tail (s : string) (c : ascii) (x : string) :
  Str.ends_with s (String c x) = true -> Str.ends_with s x = true.
Proof.
  intros H. apply ends_with_inv in H as [p ->].
  change (String c x) with (String c EmptyString ++ x).
  rewrite <- app_assoc_string. apply ends_with_app.
Qed.

Lemma ends_with_longer_false (p a : string) (c : ascii) (b : string) :
  String.length a = String.length b ->
  String.eqb a b = false ->
  Str.ends_with (p ++ a) (String c b) = false.
Proof.
  intros Hlen Hne.
  destruct (Str.ends_with (p ++ a) (String c b)) eqn:E; [|reflexivity].
  apply ends_with_tail in E.
  rewrite (ends_with_same_length _ _ _ Hlen) in E. congruence.
Qed.

End SuffixFacts.

(* ================================================================= *)
(** ** The task callback *)

Section TaskFacts.

Import Task.
Local Open Scope string_scope.
Local Open Scope Z_scope.

(** The callback on an Activation signal, once the property loop has
    found the string [st]. *)
Lemma callback_activation (t : TaskData) (values : DBusPropertiesMap)
    (st : string) :
  scanProperty get_if_string "Activation" values None = Some (Some st) ->
  callback ec_success (ifaceActivation, values) t =
    if Str.ends_with st "Invalid" || Str.ends_with st "Failed"
    then (true, onFailed t)
    else if Str.ends_with st "Staged" then (false, onStaged t)
    else if Str.ends_with st "Active" then (true, onCompleted t)
    else (false, t).
Proof.
  intros Hscan. unfold callback. simpl ec_failed. cbv iota.
  rewrite String.eqb_refl, Hscan. reflexivity.
Qed.

Lemma suffix_Active (p : string) :
  Str.ends_with (p ++ "Active") "Invalid" = false /\
  Str.ends_with (p ++ "Active") "Failed" = false /\
  Str.ends_with (p ++ "Active") "Staged" = false /\
  Str.ends_with (p ++ "Active") "Active" = true.
Proof.
  repeat split.
  - now apply ends_with_longer_false.
  - now rewrite ends_with_same_length.
  - now rewrite ends_with_same_length.
  - apply ends_with_app.
Qed.

Lemma suffix_Staged (p : string) :
  Str.ends_with (p ++ "Staged") "Invalid" = false /\
  Str.ends_with (p ++ "Staged") "Failed" = false /\
  Str.ends_with (p ++ "Staged") "Staged" = true.
Proof.
  repeat split.
  - now apply ends_with_longer_false.
  - now rewrite ends_with_same_length.
  - apply ends_with_app.
Qed.




End TaskFacts.

Section TaskClaims.

Import Task.
Local Open Scope string_scope.
Local Open Scope Z_scope.




(** C6, as stated, fails on case independence: a value ending in
    [ACTIVE] (or [active]) is not taken for [Active], the task stays
    as it was. *)
Lemma activation_suffix_is_case_sensitive :
  callback ec_success
    (activationSignal
       "xyz.openbmc_project.Software.Activation.Activations.ACTIVE")
    (started 0) = (false, started 0) /\
  callback ec_success
    (activationSignal
       "xyz.openbmc_project.Software.Activation.Activations.active")
    (started 0) = (false, started 0) /\
  Str.iequals "ACTIVE" "Active" = true.
Proof. repeat split; reflexivity. Qed.

(** C6, amended: on an Activation signal whose [Activation] property
    is the string [st], matching is case-sensitive, independent of
    the prefix and exact on the suffix: [p ++ "Active"] completes the
    task ([Completed]), [p ++ "Staged"] moves it to [Stopping] with
    the long deadline, [p ++ "Invalid"] and [p ++ "Failed"] end it in
    [Exception]; a value with none of these suffixes, such as
    [ActiveSomething], changes nothing. *)
Theorem activation_suffix_transitions (t : TaskData)
    (values : DBusPropertiesMap) (st : string)
    (Hscan : scanProperty get_if_string "Activation" values None
             = Some (Some st)) :
  (forall p, st = p ++ "Active" ->
     callback ec_success (ifaceActivation, values) t
       = (completed, onCompleted t) /\
     state (onCompleted t) = "Completed") /\
  (forall p, st = p ++ "Staged" ->
     callback ec_success (ifaceActivation, values) t
       = (negb completed, onStaged t) /\
     state (onStaged t) = "Stopping") /\
  (forall p, st = p ++ "Invalid" \/ st = p ++ "Failed" ->
     callback ec_success (ifaceActivation, values) t
       = (completed, onFailed t) /\
     state (onFailed t) = "Exception") /\
  (Str.ends_with st "Active" = false ->
   Str.ends_with st "Staged" = false ->
   Str.ends_with st "Invalid" = false ->
   Str.ends_with st "Failed" = false ->
     callback ec_success (ifaceActivation, values) t
       = (negb completed, t)) /\
  callback ec_success (activationSignal "ActiveSomething") t
    = (negb completed, t).
Proof.
  rewrite (callback_activation t values st Hscan).
  split; [|split; [|split; [|split]]].
  - intros p ->. destruct (suffix_Active p) as (-> & -> & -> & ->).
    split; reflexivity.
  - intros p ->. destruct (suffix_Staged p) as (-> & -> & ->).
    split; reflexivity.
  - intros p [-> | ->].
    + rewrite ends_with_app. split; reflexivity.
    + rewrite (ends_with_app p "Failed"), orb_true_r. split; reflexivity.
  - intros Ha Hs Hi Hf. now rewrite Ha, Hs, Hi, Hf.
  - reflexivity.
Qed.

Lemma activation_suffix_transitions_witness :
  callback ec_success (activationSignal activeValue) (started 3)
    = (true, onCompleted (started 3)) /\
  callback ec_success (activationSignal stagedValue) (started 3)
    = (false, onStaged (started 3)).
Proof.
  split.
  - destruct (activation_suffix_transitions (started 3)
                [("Activation", VString activeValue)] activeValue eq_refl)
      as (Hactive & _).
    apply (Hactive "xyz.openbmc_project.Software.Activation.Activations.").
    reflexivity.
  - destruct (activation_suffix_transitions (started 3)
                [("Activation", VString stagedValue)] stagedValue eq_refl)
      as (_ & Hstaged & _).
    apply (Hstaged "xyz.openbmc_project.Software.Activation.Activations.").
    reflexivity.
Defined.

(** C7, as stated, fails: a delivery error after a [Staged]
    transition ends the callback with the task still in [Stopping];
    nothing writes [Completed]. *)
Lemma signal_error_after_staged_stays_stopping :
  deliver [(ec_success, activationSignal stagedValue);
           (ec_other 5, (EmptyString, []))] (started 0)
    = (true, onStaged (started 0)) /\
  state (snd (deliver [(ec_success, activationSignal stagedValue);
                       (ec_other 5, (EmptyString, []))] (started 0)))
    = "Stopping" /\
  state (snd (deliver [(ec_success, activationSignal stagedValue);
                       (ec_other 5, (EmptyString, []))] (started 0)))
    <> "Completed".
Proof. repeat split; try reflexivity. vm_compute. discriminate. Qed.

(** C7, amended: on every delivery error the callback reports the
    task as done (it returns [task::completed]) and takes no further
    action: state, status, percentage, messages and deadline stay as
    they were, so the state is whatever it was before (for instance
    [Stopping] after a [Staged] transition) and is not turned into
    [Exception]. *)
Theorem signal_error_completes_without_change (ec2 : error_code)
    (msg : string * DBusPropertiesMap) (t : TaskData)
    (Hec : ec_failed ec2 = true) :
  callback ec2 msg t = (completed, t) /\
  (state t <> "Exception" ->
   state (snd (callback ec2 msg t)) <> "Exception").
Proof.
  unfold callback. rewrite Hec. split; [reflexivity | trivial].
Qed.

Lemma signal_error_completes_without_change_witness :
  ec_failed (ec_other 5) = true /\
  callback (ec_other 5) (EmptyString, []) (onStaged (started 0))
    = (true, onStaged (started 0)).
Proof.
  split; [reflexivity|].
  apply (signal_error_completes_without_change
           (ec_other 5) (EmptyString, []) (onStaged (started 0))).
  reflexivity.
Defined.

End TaskClaims.

(* ================================================================= *)
(** ** The session: cleanup, timer expiry, invariant *)

Section SessionFacts.

Import Session.

Lemma cleanUp_idempotent (s : t) : cleanUp (cleanUp s) = cleanUp s.
Proof. reflexivity. Qed.

Lemma cleanUp_iter (n : nat) (s : t) :
  Nat.iter (S n) cleanUp s = cleanUp s.
Proof.
  induction n as [|n IH]; [reflexivity|].
  change (Nat.iter (S (S n)) cleanUp s)
    with (cleanUp (Nat.iter (S n) cleanUp s)).
  now rewrite IH.
Qed.

(** The error matcher only ever touches the timer. *)
Lemma scanMessages_session (url : string) (values : DBusPropertiesMap) :
  forall res s,
    snd (snd (scanMessages url values res s)) = s \/
    snd (snd (scanMessages url values res s)) = resetTimer s.
Proof.
  induction values as [|[name value] rest IH]; intros res s; simpl.
  - now left.
  - destruct (negb (String.eqb name "Message")); [apply IH|].
    destruct (get_if_string value) as [type|]; [|now left].
    destruct (IH (classify url type res) (resetTimer s)) as [-> | ->];
      now right.
Qed.

Lemma errorLogAdded_session (url : string)
    (ifaces : list (string * DBusPropertiesMap)) :
  forall res s,
    snd (errorLogAdded url ifaces res s) = s \/
    snd (errorLogAdded url ifaces res s) = resetTimer s.
Proof.
  induction ifaces as [|[name values] rest IH]; intros res s; simpl.
  - now left.
  - destruct (String.eqb name "xyz.openbmc_project.Logging.Entry");
      [|apply IH].
    pose proof (scanMessages_session url values res s) as Hs.
    destruct (scanMessages url values res s) as [returned [res' s']].
    simpl in Hs. destruct returned; [exact Hs|].
    destruct (IH res' s') as [-> | ->]; destruct Hs as [-> | ->];
      auto.
Qed.

Lemma invariant_resetTimer (s : t) : invariant s -> invariant (resetTimer s).
Proof. intros H. exact H. Qed.

Lemma invariant_cleanUp (s : t) : invariant (cleanUp s).
Proof. split; [reflexivity | discriminate]. Qed.

Lemma invariant_step (e : Event) (s : t) : invariant s -> invariant (step e s).
Proof.
  intros H.
  destruct e as [a tm | ec a | ec objInfo objPath idx a | url ifaces r | |];
    simpl.
  - unfold monitorForSoftwareAvailable.
    destruct (fwUpdateInProgress s); [exact H|].
    split; [reflexivity | reflexivity].
  - unfold timerHandler.
    destruct (ec_is_aborted ec); [apply invariant_cleanUp|].
    destruct (ec_failed ec); apply invariant_cleanUp.
  - unfold objectInfoHandler.
    destruct (ec_failed ec); [apply invariant_cleanUp|].
    destruct objInfo as [|[service ifs] [|]]; try apply invariant_cleanUp.
    destruct H as [H1 _]. split; [exact H1 | discriminate].
  - destruct (errorLogAdded_session url ifaces r s)
      as [-> | ->]; [exact H | now apply invariant_resetTimer].
  - apply invariant_cleanUp.
  - apply invariant_cleanUp.
Qed.

Lemma reachable_run (trace : list Event) :
  forall s, reachable s -> reachable (run trace s).
Proof.
  induction trace as [|e rest IH]; intros s Hs; simpl; [exact Hs|].
  apply IH. now constructor.
Qed.

Lemma scanMessages_noMessage (url : string) (values : DBusPropertiesMap) :
  forall res s, noMessage values = true ->
                scanMessages url values res s = (false, (res, s)).
Proof.
  induction values as [|[name value] rest IH]; intros res s H; simpl.
  - reflexivity.
  - simpl in H. apply andb_true_iff in H as [Hn Hrest].
    rewrite Hn. now apply IH.
Qed.

Lemma scanMessages_skip (url : string) (pre rest : DBusPropertiesMap) :
  forall res s, noMessage pre = true ->
                scanMessages url (pre ++ rest) res s
                = scanMessages url rest res s.
Proof.
  induction pre as [|[name value] pre IH]; intros res s H; simpl.
  - reflexivity.
  - simpl in H. apply andb_true_iff in H as [Hn Hpre].
    rewrite Hn. now apply IH.
Qed.

(** The answer of the [if / else if] chain is appended to what the
    response holds. *)
Lemma classify_appends (url type : string) (r : Response) :
  exists added,
    added <> [] /\
    resMessages (classify url type r) = resMessages r ++ added.
Proof.
  unfold classify.
  repeat match goal with
         | |- context [if ?b then _ else _] => destruct b
         end;
    unfold addMessage; simpl;
    try (eexists; split; [|reflexivity]; discriminate).
  exists (ErrorLog.alreadyExistsMessages url).
  split; [discriminate|]. now rewrite <- app_assoc.
Qed.











End SessionFacts.

Section SessionClaims.

Import Session.

(** C2, as stated, fails: after [monitorForSoftwareAvailable] and an
    ordinary expiry of the timer the flag is false and both matchers
    are gone while the timer object is still held; the three were
    not destroyed together. *)
Lemma spec_invariant_broken_after_timeout :
  reachable (run [Monitor (Some emptyResponse) defaultTimeout;
                  TimerHandler ec_success (Some emptyResponse)] initial) /\
  run [Monitor (Some emptyResponse) defaultTimeout;
       TimerHandler ec_success (Some emptyResponse)] initial
    = mkSession None None false (Some (mkTimer 25)) /\
  ~ spec_invariant
      (run [Monitor (Some emptyResponse) defaultTimeout;
            TimerHandler ec_success (Some emptyResponse)] initial).
Proof.
  split; [apply reachable_run; constructor|].
  split; [reflexivity|].
  intros [_ H]. simpl in H.
  assert (Hf : false = true).
  { apply H. right. right. discriminate. }
  discriminate Hf.
Qed.

(** C2, amended: in every reachable state of the session the two
    subscriptions are both open or both closed, and
    [fwUpdateInProgress] is only true while both are open (so a true
    flag implies that a subscription is non-null).  The timer is not
    tied to them: [cleanUp] keeps it, and the hand-off and the error
    matcher release it on its own. *)
Theorem session_invariant (s : t) (Hreach : reachable s) :
  invariant s /\
  (fwUpdateInProgress s = true ->
   fwUpdateMatcher s <> None /\ fwUpdateErrorMatcher s <> None).
Proof.
  assert (Hinv : invariant s).
  { induction Hreach as [|e s Hs IH].
    - split; [reflexivity | discriminate].
    - now apply invariant_step. }
  split; [exact Hinv|].
  destruct Hinv as [Hboth Hflag]. intros Hp. specialize (Hflag Hp).
  rewrite Hflag in Hboth.
  destruct (fwUpdateMatcher s), (fwUpdateErrorMatcher s);
    try discriminate; split; discriminate.
Qed.

Lemma session_invariant_witness :
  reachable armed /\ invariant armed /\
  fwUpdateMatcher armed <> None /\ fwUpdateErrorMatcher armed <> None.
Proof.
  assert (Hr : reachable armed).
  { exact (reach_step (Monitor (Some emptyResponse) defaultTimeout)
                      initial reach_initial). }
  destruct (session_invariant armed Hr) as [Hinv Hflag].
  split; [exact Hr|]. split; [exact Hinv|].
  apply Hflag. reflexivity.
Defined.

(** C3, as stated, fails on the timer: [cleanUp] run on the armed
    session leaves [fwAvailableTimer] pointing at the timer, so the
    state is not the released one. *)
Lemma cleanUp_keeps_timer :
  fwAvailableTimer (cleanUp armed) = Some (mkTimer 25) /\
  ~ released (cleanUp armed).
Proof.
  split; [reflexivity|].
  intros (_ & _ & _ & H). discriminate H.
Qed.

(** C3, amended: from every state [cleanUp] clears
    [fwUpdateInProgress] and releases both subscriptions, leaves
    [fwAvailableTimer] as it found it, and is idempotent: any
    positive number of runs gives the state of one run. *)
Theorem cleanUp_releases_gate (s : t) (n : nat) :
  fwUpdateInProgress (cleanUp s) = false /\
  fwUpdateMatcher (cleanUp s) = None /\
  fwUpdateErrorMatcher (cleanUp s) = None /\
  fwAvailableTimer (cleanUp s) = fwAvailableTimer s /\
  cleanUp (cleanUp s) = cleanUp s /\
  Nat.iter (S n) cleanUp s = cleanUp s.
Proof.
  repeat split; try reflexivity. apply cleanUp_iter.
Qed.

(** C4, as stated, fails: the handler run with
    [operation_aborted] on the armed session writes nothing to the
    response but does change the session: the flag goes from true to
    false and both subscriptions are released. *)
Lemma aborted_timer_handler_mutates_session :
  fwUpdateInProgress armed = true /\
  timerHandler ec_operation_aborted (Some emptyResponse) armed
    = (Some emptyResponse, mkSession None None false (Some (mkTimer 25))) /\
  snd (timerHandler ec_operation_aborted (Some emptyResponse) armed)
    <> armed.
Proof. repeat split; try reflexivity. discriminate. Qed.

(** C4, amended: the expiry handler runs [cleanUp] first on every
    path.  With [operation_aborted] (and with any other error) it
    writes no response; only an expiry without error adds
    [InternalError], and only when a response is attached.  The
    timer pointer itself is never changed by the handler. *)
Theorem timer_handler_effect (ec : error_code)
    (asyncResp : option Response) (s : t) :
  snd (timerHandler ec asyncResp s) = cleanUp s /\
  fwAvailableTimer (snd (timerHandler ec asyncResp s))
    = fwAvailableTimer s /\
  fst (timerHandler ec asyncResp s)
    = match ec with
      | ec_success => addMessageIf InternalError asyncResp
      | _ => asyncResp
      end.
Proof. destruct ec; repeat split; reflexivity. Qed.




End SessionClaims.

(* ================================================================= *)
(** ** SimpleUpdate: splitting the image URI *)

Section SimpleUpdateClaims.

Import SimpleUpdate.

(** [find] answers with a position inside the string, so the guard
    [separator + 1 > imageURI.size()] never fires. *)
Lemma find_lt (c : ascii) (s : string) (i : nat) :
  Str.find c s = Some i -> i < String.length s.
Proof.
  revert i. induction s as [|d s IH]; intros i H; simpl in *.
  - discriminate.
  - destruct (Ascii.eqb d c).
    + injection H as <-. lia.
    + destruct (Str.find c s) as [j|]; [|discriminate].
      injection H as <-. specialize (IH j eq_refl). lia.
Qed.

(** When the protocol is taken from the URI, the handler throws
    exactly when fewer than two characters follow the colon. *)
Lemma deriveProtocol_out_of_range (imageURI : string) (separator : nat) :
  Str.find ":" imageURI = Some separator ->
  (deriveProtocol None imageURI = inl OutOfRange <->
   String.length imageURI < separator + 3).
Proof.
  intros Hfind. pose proof (find_lt _ _ _ Hfind) as Hlt.
  unfold deriveProtocol. rewrite Hfind.
  destruct (String.length imageURI <? separator + 1)%nat eqn:E1.
  - apply Nat.ltb_lt in E1. lia.
  - unfold Str.substr_n, Str.substr.
    destruct (String.length imageURI <? 0)%nat eqn:E0.
    { apply Nat.ltb_lt in E0. lia. }
    destruct (String.length imageURI <? separator + 3)%nat eqn:E3.
    + apply Nat.ltb_lt in E3. split; [intros _; exact E3 | reflexivity].
    + apply Nat.ltb_ge in E3. split; [discriminate | lia].
Qed.

(** C9: [ImageURI = "tftp:x"] with [TransferProtocol] absent passes
    the separator check (the colon is at 4 and 4 + 1 <= 6), and the
    extraction [substr(4 + 3)] on the six characters is out of range:
    the handler leaves by [std::out_of_range]. *)
Theorem simple_update_short_uri_out_of_range :
  Str.find ":" "tftp:x" = Some 4 /\
  (String.length "tftp:x" <? 4 + 1)%nat = false /\
  Str.substr (4 + 3) "tftp:x" = None /\
  splitImageURI None "tftp:x" = OutOfRange /\
  post None "tftp:x" idle = Threw "std::out_of_range" idle /\
  splitImageURI None "tftp://10.0.0.5/image.bin"
    = Split_ok "10.0.0.5" "image.bin".
Proof. repeat split; reflexivity. Qed.

(** A rejected SimpleUpdate request never reaches
    [monitorForSoftwareAvailable]: the session is as it was. *)
Lemma simple_update_rejection_leaves_session
    (transferProtocol : option string) (imageURI : string) (m : Message)
    (w : World) :
  splitImageURI transferProtocol imageURI = Rejected m ->
  post transferProtocol imageURI w = Returned (respond m w) /\
  session (respond m w) = session w.
Proof. intros H. unfold post. rewrite H. split; reflexivity. Qed.

End SimpleUpdateClaims.

(* ================================================================= *)
(** ** Multipart upload: validation *)

Section MultipartFacts.

Import Multipart.

Variable param_list : string -> list (string * string).
Variable readUpdateParameters : string -> ReadResult.

Let scan := scanParts param_list readUpdateParameters.

(** Running the loop over [pre ++ rest] is running it over [pre] and,
    unless that left the function, going on with [rest]. *)
Lemma scanParts_app (pre rest : list FormPart) (r : Response) :
  forall l,
    scan (pre ++ rest) r l =
    match scan pre r l with
    | Continue l' => scan rest r l'
    | out => out
    end.
Proof.
  unfold scan.
  induction pre as [|p pre IH]; intros l; simpl; [reflexivity|].
  destruct (findField "Content-Disposition" (fields p)) as [value|];
    [|reflexivity].
  destruct (Str.find ";" value) as [index|]; [|apply IH].
  destruct (scanParams readUpdateParameters (content p)
              (param_list
                 (substring index (String.length value - index) value))
              r l); try reflexivity.
  apply IH.
Qed.

(** A part without Content-Disposition is where the loop stops, if
    it gets there. *)
Lemma scanParts_bare (pre post : list FormPart) (p : FormPart)
    (r : Response) (l : Locals) :
  findField "Content-Disposition" (fields p) = None ->
  scan (pre ++ p :: post) r l =
  match scan pre r l with
  | Continue _ => Return r
  | out => out
  end.
Proof.
  intros Hnone. rewrite scanParts_app.
  destruct (scan pre r l); try reflexivity.
  unfold scan. simpl. now rewrite Hnone.
Qed.

End MultipartFacts.

Section MultipartClaims.

Import Multipart.

Variable param_list : string -> list (string * string).
Variable readUpdateParameters : string -> ReadResult.

Lemma withRes_same (w : World) : withRes (res w) w = w.
Proof. now destruct w. Qed.

(** On the multipart path the session is armed before the parts are
    looked at: whenever the part loop leaves the function early, the
    handler returns with the monitoring of
    [monitorForSoftwareAvailable] in place. *)
Lemma multipart_rejection_after_arming (io : FileIO) (req : Request)
    (parts : list FormPart) (w : World) (r : Response) :
  Str.iequals (contentType req) "application/octet-stream" = false ->
  Str.starts_with (contentType req) "multipart/form-data" = true ->
  mime_fields req = Some parts ->
  Session.fwUpdateInProgress (session w) = false ->
  scanParts param_list readUpdateParameters parts (res w) initLocals
    = Return r ->
  handleUpdateServicePost param_list readUpdateParameters io req w
    = Returned (mkWorld
                  (Session.mkSession
                     (Some (Session.mkMatch Session.softwareRule))
                     (Some (Session.mkMatch Session.loggingRule))
                     true
                     (Some (Session.mkTimer Session.defaultTimeout)))
                  r (files w) (busCalls w)).
Proof.
  intros Hoct Hmulti Hparts Hidle Hscan.
  unfold handleUpdateServicePost. rewrite Hoct, Hmulti, Hparts.
  unfold updateMultipartContext, monitor, Session.monitorForSoftwareAvailable.
  rewrite Hidle. simpl. rewrite Hscan. reflexivity.
Qed.

(** C10, as stated, fails when an earlier part is itself rejected:
    with a two-target [UpdateParameters] part ahead of the part
    without Content-Disposition, the response receives the format
    error. *)
Lemma bare_part_after_bad_targets_gets_error :
  findField "Content-Disposition" (fields (barePart "image")) = None /\
  updateMultipartContext sample_param_list sample_readUpdateParameters
    (complete "image")
    [parametersPart [bmc; system]; barePart "image"] idle
  = Returned (respond (PropertyValueFormatError "Targets" EmptyString) idle)
  /\
  res (respond (PropertyValueFormatError "Targets" EmptyString) idle)
    <> res idle.
Proof. repeat split; try reflexivity. discriminate. Qed.

(** C10, amended: for every multipart request containing a form part
    without a Content-Disposition header, [updateMultipartContext]
    writes no file, issues no bus call and leaves the session alone;
    and when the parts ahead of it were taken without a rejection it
    returns at that part with the response exactly as the caller
    left it. *)
Theorem bare_part_returns_silently (io : FileIO)
    (pre post : list FormPart) (p : FormPart) (w : World)
    (Hbare : findField "Content-Disposition" (fields p) = None) :
  files (worldOf (updateMultipartContext param_list readUpdateParameters
                    io (pre ++ p :: post) w)) = files w /\
  busCalls (worldOf (updateMultipartContext param_list readUpdateParameters
                       io (pre ++ p :: post) w)) = busCalls w /\
  session (worldOf (updateMultipartContext param_list readUpdateParameters
                      io (pre ++ p :: post) w)) = session w /\
  (forall l,
     scanParts param_list readUpdateParameters pre (res w) initLocals
       = Continue l ->
     updateMultipartContext param_list readUpdateParameters
       io (pre ++ p :: post) w = Returned w).
Proof.
  unfold updateMultipartContext.
  rewrite (scanParts_bare param_list readUpdateParameters
             pre post p (res w) initLocals Hbare).
  destruct (scanParts param_list readUpdateParameters pre (res w)
              initLocals) as [l0 | r | ].
  - rewrite withRes_same. repeat split; reflexivity.
  - repeat split; try reflexivity. intros l H. discriminate H.
  - repeat split; try reflexivity. intros l H. discriminate H.
Qed.

End MultipartClaims.

Section MultipartSamples.

Import Multipart.

Lemma bare_part_returns_silently_witness :
  findField "Content-Disposition" (fields (barePart "image")) = None /\
  updateMultipartContext sample_param_list sample_readUpdateParameters
    (complete "image")
    ([parametersPart [bmc]] ++ barePart "image" :: []) idle
  = Returned idle.
Proof.
  split; [reflexivity|].
  destruct (bare_part_returns_silently sample_param_list
              sample_readUpdateParameters (complete "image")
              [parametersPart [bmc]] [] (barePart "image") idle eq_refl)
    as (_ & _ & _ & Hsilent).
  apply (Hsilent (mkLocals None "OnReset" true)). reflexivity.
Defined.

(** C1: each malformed multipart request is answered with its
    validation error and no file is written, but only after
    [monitorForSoftwareAvailable] has run: from the idle session the
    handler returns with [fwUpdateInProgress] true, both
    subscriptions open and the 25 s timer armed. *)
Theorem malformed_multipart_rejected_after_arming :
  samplePost [parametersPart []; filePart "image"]
    = rejectedArmed (PropertyValueFormatError "Targets" EmptyString) /\
  samplePost [parametersPart [bmc; system]; filePart "image"]
    = rejectedArmed (PropertyValueFormatError "Targets" EmptyString) /\
  samplePost [parametersPart [system]; filePart "image"]
    = rejectedArmed (PropertyValueNotInList "Targets/0" system) /\
  samplePost [parametersPart [bmc]]
    = rejectedArmed (PropertyMissing "UpdateFile") /\
  samplePost [filePart "image"]
    = rejectedArmed (PropertyMissing "targets") /\
  Session.fwUpdateInProgress Session.armed = true /\
  Session.fwUpdateMatcher Session.armed
    = Some (Session.mkMatch Session.softwareRule) /\
  Session.fwUpdateErrorMatcher Session.armed
    = Some (Session.mkMatch Session.loggingRule) /\
  Session.fwAvailableTimer Session.armed = Some (Session.mkTimer 25).
Proof. repeat split; reflexivity. Qed.

(** A well-formed request, for comparison: the apply time is
    requested and the image written. *)
Example well_formed_multipart_accepted :
  samplePost [parametersPart [bmc]; filePart "image"]
  = Returned
      (mkWorld Session.armed emptyResponse ["image"]
         [("RequestedApplyTime",
           ["xyz.openbmc_project.Software.ApplyTime.RequestedApplyTimes.OnReset"])]).
Proof. reflexivity. Qed.

End MultipartSamples.

(* ================================================================= *)
(** ** Further properties of the task callback *)

Section TaskFrame.

Import Task.
Local Open Scope string_scope.

(** The property loop over two lists is the loop over the first, then
    over the second from where the first ended. *)
Lemma scanProperty_app {A : Type} (get : DbusVariantType -> option A)
    (key : string) (l1 l2 : DBusPropertiesMap) :
  forall cur,
    scanProperty get key (l1 ++ l2)%list cur =
    match scanProperty get key l1 cur with
    | None => None
    | Some c => scanProperty get key l2 c
    end.
Proof.
  induction l1 as [|[k v] l1 IH]; intros cur; simpl; [reflexivity|].
  destruct (String.eqb k key); [|apply IH].
  destruct (get v) as [a|]; [apply IH | reflexivity].
Qed.

(** The loop bails out exactly when some property of that name has
    the wrong type. *)
Lemma scanProperty_none_iff {A : Type} (get : DbusVariantType -> option A)
    (key : string) (values : DBusPropertiesMap) :
  forall cur,
    scanProperty get key values cur = None <->
    exists v, In (key, v) values /\ get v = None.
Proof.
  induction values as [|[k v] rest IH]; intros cur; simpl.
  - split; [discriminate | intros (v & [] & _)].
  - destruct (String.eqb_spec k key) as [->|Hne].
    + destruct (get v) as [a|] eqn:Hget.
      * rewrite IH. split.
        -- intros (v' & Hin & Hv'). exists v'. split; [now right | exact Hv'].
        -- intros (v' & [Heq | Hin] & Hv').
           ++ injection Heq as <-. congruence.
           ++ now exists v'.
      * split; [intros _ | reflexivity].
        exists v. split; [now left | exact Hget].
    + rewrite IH. split.
      * intros (v' & Hin & Hv'). exists v'. split; [now right | exact Hv'].
      * intros (v' & [Heq | Hin] & Hv').
        -- injection Heq as Hk _. contradiction.
        -- now exists v'.
Qed.

(** Without a property of that name the loop leaves the pointer. *)
Lemma scanProperty_absent {A : Type} (get : DbusVariantType -> option A)
    (key : string) (values : DBusPropertiesMap) :
  (forall v, ~ In (key, v) values) ->
  forall cur, scanProperty get key values cur = Some cur.
Proof.
  induction values as [|[k v] rest IH]; intros Habs cur; simpl;
    [reflexivity|].
  destruct (String.eqb_spec k key) as [->|Hne].
  - exfalso. apply (Habs v). now left.
  - apply IH. intros v' Hin. apply (Habs v'). now right.
Qed.

Ltac log_kept :=
  split; [reflexivity|]; exists [];
  split; [now rewrite app_nil_r | simpl; lia].

Ltac log_grown :=
  split; [reflexivity|]; eexists;
  split; [reflexivity | simpl; lia].

(** X1: whatever the signal, the callback keeps the task's index and
    only appends to its message log, at most one message per call. *)
Theorem callback_appends_at_most_one (ec : error_code)
    (msg : string * DBusPropertiesMap) (t : TaskData) :
  index (snd (callback ec msg t)) = index t /\
  exists added,
    messages (snd (callback ec msg t)) = (messages t ++ added)%list /\
    List.length added <= 1.
Proof.
  unfold callback. destruct msg as [iface values].
  destruct (ec_failed ec).
  { log_kept. }
  destruct (String.eqb iface ifaceActivation).
  - destruct (scanProperty get_if_string "Activation" values None)
      as [[st|]|].
    + destruct (Str.ends_with st "Invalid" || Str.ends_with st "Failed").
      { log_grown. }
      destruct (Str.ends_with st "Staged").
      { log_grown. }
      destruct (Str.ends_with st "Active").
      { log_grown. }
      log_kept.
    + log_kept.
    + log_grown.
  - destruct (String.eqb iface ifaceActivationProgress).
    + destruct (scanProperty get_if_uint8 "Progress" values None)
        as [[b|]|].
      * log_grown.
      * log_kept.
      * log_grown.
    + log_kept.
Qed.

(** X2: a call that does not complete the task leaves its state or
    moves it to [Stopping]; the status only ever changes to [Warning],
    and then the task is completed in state [Exception]. *)
Theorem callback_state_moves (ec : error_code)
    (msg : string * DBusPropertiesMap) (t : TaskData) :
  (fst (callback ec msg t) = false ->
   state (snd (callback ec msg t)) = state t \/
   state (snd (callback ec msg t)) = "Stopping") /\
  (status (snd (callback ec msg t)) = status t \/
   status (snd (callback ec msg t)) = "Warning" /\
   state (snd (callback ec msg t)) = "Exception" /\
   fst (callback ec msg t) = true).
Proof.
  unfold callback. destruct msg as [iface values].
  destruct (ec_failed ec); [split; [intros _|]; now left|].
  destruct (String.eqb iface ifaceActivation).
  - destruct (scanProperty get_if_string "Activation" values None)
      as [[st|]|]; try (split; [intros _|]; now left).
    destruct (Str.ends_with st "Invalid" || Str.ends_with st "Failed").
    { split; [discriminate|]. right. repeat split. }
    destruct (Str.ends_with st "Staged").
    { split; [intros _; now right | now left]. }
    destruct (Str.ends_with st "Active").
    { split; [discriminate | now left]. }
    split; [intros _|]; now left.
  - destruct (String.eqb iface ifaceActivationProgress);
      [|split; [intros _|]; now left].
    destruct (scanProperty get_if_uint8 "Progress" values None)
      as [[b|]|]; split; try (intros _); now left.
Qed.

Lemma callback_state_moves_witness :
  state (snd (callback ec_success (activationSignal stagedValue)
                (started 1))) = state (started 1) \/
  state (snd (callback ec_success (activationSignal stagedValue)
                (started 1))) = "Stopping".
Proof.
  apply (callback_state_moves ec_success (activationSignal stagedValue)
           (started 1)).
  reflexivity.
Defined.

(** X3: the two interfaces do not interfere: a progress signal never
    changes state or status, an activation signal never changes the
    percentage, and a signal of any other interface changes nothing
    and does not complete the task. *)
Theorem callback_interfaces_do_not_interfere (ec : error_code)
    (iface : string) (values : DBusPropertiesMap) (t : TaskData) :
  state (snd (callback ec (ifaceActivationProgress, values) t)) = state t /\
  status (snd (callback ec (ifaceActivationProgress, values) t)) = status t /\
  percentComplete (snd (callback ec (ifaceActivation, values) t))
    = percentComplete t /\
  (iface <> ifaceActivation -> iface <> ifaceActivationProgress ->
   callback ec_success (iface, values) t = (false, t)).
Proof.
  split; [|split; [|split]].
  - unfold callback. destruct (ec_failed ec); [reflexivity|].
    change (String.eqb ifaceActivationProgress ifaceActivation) with false.
    cbv iota. rewrite String.eqb_refl.
    now destruct (scanProperty get_if_uint8 "Progress" values None)
      as [[b|]|].
  - unfold callback. destruct (ec_failed ec); [reflexivity|].
    change (String.eqb ifaceActivationProgress ifaceActivation) with false.
    cbv iota. rewrite String.eqb_refl.
    now destruct (scanProperty get_if_uint8 "Progress" values None)
      as [[b|]|].
  - unfold callback. destruct (ec_failed ec); [reflexivity|].
    rewrite String.eqb_refl.
    destruct (scanProperty get_if_string "Activation" values None)
      as [[st|]|]; try reflexivity.
    destruct (Str.ends_with st "Invalid" || Str.ends_with st "Failed");
      [reflexivity|].
    destruct (Str.ends_with st "Staged"); [reflexivity|].
    now destruct (Str.ends_with st "Active").
  - intros H1 H2. apply String.eqb_neq in H1, H2.
    unfold callback. simpl ec_failed. cbv iota. now rewrite H1, H2.
Qed.

Lemma callback_interfaces_do_not_interfere_witness :
  callback ec_success
    ("xyz.openbmc_project.Software.Version", [("Version", VString "2.9")])
    (started 1) = (false, started 1).
Proof.
  apply (callback_interfaces_do_not_interfere ec_success
           "xyz.openbmc_project.Software.Version"
           [("Version", VString "2.9")] (started 1)); discriminate.
Defined.

(** X4: a wrongly typed [Activation] (or [Progress]) property anywhere
    in the signal ends the task with [InternalError] appended and
    nothing else changed, also when a well-typed property of the same
    name is present. *)
Theorem mistyped_property_ends_task (values : DBusPropertiesMap)
    (v : DbusVariantType) (t : TaskData) :
  (In ("Activation", v) values -> get_if_string v = None ->
   callback ec_success (ifaceActivation, values) t
     = (true, emplace_back InternalError t)) /\
  (In ("Progress", v) values -> get_if_uint8 v = None ->
   callback ec_success (ifaceActivationProgress, values) t
     = (true, emplace_back InternalError t)).
Proof.
  split; intros Hin Hget.
  - assert (E : scanProperty get_if_string "Activation" values None = None).
    { apply scanProperty_none_iff. now exists v. }
    unfold callback. simpl ec_failed. cbv iota.
    rewrite String.eqb_refl, E. reflexivity.
  - assert (E : scanProperty get_if_uint8 "Progress" values None = None).
    { apply scanProperty_none_iff. now exists v. }
    unfold callback. simpl ec_failed. cbv iota.
    change (String.eqb ifaceActivationProgress ifaceActivation) with false.
    cbv iota. rewrite String.eqb_refl, E. reflexivity.
Qed.

Lemma mistyped_property_ends_task_witness :
  callback ec_success
    (ifaceActivation,
     [("Activation", VString activeValue); ("Activation", VBool true)])
    (started 1)
  = (true, emplace_back InternalError (started 1)).
Proof.
  apply (mistyped_property_ends_task
           [("Activation", VString activeValue); ("Activation", VBool true)]
           (VBool true) (started 1)).
  - right. left. reflexivity.
  - reflexivity.
Defined.

(** X5: when every [Activation] property is a string, the last one in
    the signal decides: the callback acts as on a signal carrying that
    value alone. *)
Theorem last_activation_value_decides (pre post : DBusPropertiesMap)
    (st : string) (t : TaskData)
    (Hpre : forall v, In ("Activation", v) pre -> get_if_string v <> None)
    (Hpost : forall v, ~ In ("Activation", v) post) :
  callback ec_success
    (ifaceActivation, (pre ++ ("Activation", VString st) :: post)%list) t
  = callback ec_success (activationSignal st) t.
Proof.
  assert (E : scanProperty get_if_string "Activation"
                (pre ++ ("Activation", VString st) :: post)%list None
              = Some (Some st)).
  { rewrite scanProperty_app.
    destruct (scanProperty get_if_string "Activation" pre None)
      as [c|] eqn:Epre.
    - simpl. now apply scanProperty_absent.
    - apply scanProperty_none_iff in Epre as (v & Hin & Hv).
      exfalso. exact (Hpre v Hin Hv). }
  etransitivity; [exact (callback_activation t _ st E)|].
  symmetry. apply callback_activation. reflexivity.
Qed.

Lemma last_activation_value_decides_witness :
  callback ec_success
    (ifaceActivation,
     [("Activation", VString stagedValue); ("Activation", VString activeValue);
      ("RequestedActivation", VString "None")])
    (started 1)
  = (true, onCompleted (started 1)).
Proof.
  change (callback ec_success
            (ifaceActivation,
             ([("Activation", VString stagedValue)] ++
              ("Activation", VString activeValue)
                :: [("RequestedActivation", VString "None")])%list)
            (started 1)
          = callback ec_success (activationSignal activeValue) (started 1)).
  apply last_activation_value_decides.
  - intros v [H | []]. injection H as <-. discriminate.
  - intros v [H | []]. discriminate H.
Defined.

End TaskFrame.

(* ================================================================= *)
(** ** Further properties of the session *)

Section SessionFrame.

Import Session Gate.

(** X6: single flight.  After any call of
    [monitorForSoftwareAvailable] the flag is set, and a second call
    changes nothing in the session and answers
    [ServiceTemporarilyUnavailable] (if a response is attached),
    whatever timeout it asks for. *)
Theorem monitor_is_single_flight (a1 a2 : option Response) (t1 t2 : Z)
    (s : t) :
  fwUpdateInProgress (snd (monitorForSoftwareAvailable a1 t1 s)) = true /\
  monitorForSoftwareAvailable a2 t2
    (snd (monitorForSoftwareAvailable a1 t1 s))
  = (addMessageIf (ServiceTemporarilyUnavailable "30") a2,
     snd (monitorForSoftwareAvailable a1 t1 s)).
Proof.
  assert (H1 : fwUpdateInProgress (snd (monitorForSoftwareAvailable a1 t1 s))
               = true).
  { unfold monitorForSoftwareAvailable.
    destruct (fwUpdateInProgress s) eqn:E; [exact E | reflexivity]. }
  split; [exact H1|].
  generalize dependent (snd (monitorForSoftwareAvailable a1 t1 s)).
  intros s1 H1. unfold monitorForSoftwareAvailable. now rewrite H1.
Qed.

Ltac settle_cases :=
  repeat split; intros;
  repeat match goal with
         | H : _ /\ _ |- _ => destruct H
         end;
  simpl in *; try congruence; try discriminate; try tauto; try lia.

(** X7: the [getDbusObject] callback always leaves the flag clear.
    The activation is requested exactly when there is no error and
    exactly one owning service; a task is created exactly when, in
    addition, a response is attached.  Without activation the session
    is cleaned up and [InternalError] reported; with it the timer is
    released and the subscriptions stay. *)
Theorem hand_off_conditions (ec : error_code)
    (objInfo : list (string * list string)) (objPath : string)
    (nextIndex : nat) (asyncResp : option Response) (s : t) :
  let out := objectInfoHandler ec objInfo objPath nextIndex asyncResp s in
  fwUpdateInProgress (snd (fst out)) = false /\
  (activated (snd out) <> None <->
   ec_failed ec = false /\ List.length objInfo = 1) /\
  (created (snd out) <> None <->
   ec_failed ec = false /\ List.length objInfo = 1 /\ asyncResp <> None) /\
  (activated (snd out) = None ->
   snd (fst out) = cleanUp s /\
   fst (fst out) = addMessageIf InternalError asyncResp) /\
  (activated (snd out) <> None ->
   fwAvailableTimer (snd (fst out)) = None /\
   fwUpdateMatcher (snd (fst out)) = fwUpdateMatcher s /\
   fwUpdateErrorMatcher (snd (fst out)) = fwUpdateErrorMatcher s).
Proof.
  unfold objectInfoHandler.
  destruct (ec_failed ec) eqn:Eec; simpl.
  { settle_cases. }
  destruct objInfo as [|[service ifs] [|second rest]];
    destruct asyncResp as [r|]; simpl; settle_cases.
Qed.

Lemma hand_off_conditions_witness :
  fwAvailableTimer
    (snd (fst (objectInfoHandler ec_success
                 [("xyz.openbmc_project.Software.BMC.Updater",
                   ["xyz.openbmc_project.Software.Activation"])]
                 "/xyz/openbmc_project/software/1a2b" 0
                 (Some emptyResponse) armed))) = None.
Proof.
  apply (hand_off_conditions ec_success
           [("xyz.openbmc_project.Software.BMC.Updater",
             ["xyz.openbmc_project.Software.Activation"])]
           "/xyz/openbmc_project/software/1a2b" 0
           (Some emptyResponse) armed).
  discriminate.
Defined.

Lemma resetTimer_twice (s : t) : resetTimer (resetTimer s) = resetTimer s.
Proof. reflexivity. Qed.

(** The inner loop either changes nothing, or resets the timer and
    writes at least one message. *)
Lemma scanMessages_effect (url : string) (values : DBusPropertiesMap) :
  forall r s,
    let out := snd (scanMessages url values r s) in
    out = (r, s) \/
    snd out = resetTimer s /\
    exists added,
      added <> [] /\ resMessages (fst out) = resMessages r ++ added.
Proof.
  induction values as [|[name value] rest IH]; intros r s; simpl.
  - now left.
  - destruct (negb (String.eqb name "Message")); [apply IH|].
    destruct (get_if_string value) as [type|]; [|now left].
    right.
    destruct (classify_appends url type r) as (added & Hne & Hadd).
    destruct (IH (classify url type r) (resetTimer s))
      as [-> | (Hs & added' & Hne' & Hadd')]; simpl.
    + split; [reflexivity|]. now exists added.
    + split; [now rewrite Hs|].
      exists (added ++ added'). split.
      * destruct added; [contradiction | discriminate].
      * now rewrite Hadd', Hadd, app_assoc.
Qed.

(** X8: the error matcher never clears the flag and never drops a
    subscription.  Either it changes nothing at all, or it resets the
    timer and appends at least one message to the response: the wait
    is cancelled exactly when the client is told something. *)
Theorem error_log_cancels_iff_it_reports (url : string)
    (ifaces : list (string * DBusPropertiesMap)) :
  forall (r : Response) (s : t),
    let out := errorLogAdded url ifaces r s in
    fwUpdateInProgress (snd out) = fwUpdateInProgress s /\
    fwUpdateMatcher (snd out) = fwUpdateMatcher s /\
    fwUpdateErrorMatcher (snd out) = fwUpdateErrorMatcher s /\
    (out = (r, s) \/
     snd out = resetTimer s /\
     exists added,
       added <> [] /\ resMessages (fst out) = resMessages r ++ added).
Proof.
  induction ifaces as [|[name values] rest IH]; intros r s; simpl.
  - repeat split. now left.
  - destruct (String.eqb name "xyz.openbmc_project.Logging.Entry");
      [|apply IH].
    pose proof (scanMessages_effect url values r s) as Hscan.
    destruct (scanMessages url values r s) as [returned [r' s']].
    simpl in Hscan.
    assert (Hgate : fwUpdateInProgress s' = fwUpdateInProgress s /\
                    fwUpdateMatcher s' = fwUpdateMatcher s /\
                    fwUpdateErrorMatcher s' = fwUpdateErrorMatcher s).
    { destruct Hscan as [H | (-> & _)]; [injection H as _ ->|];
        repeat split. }
    destruct returned.
    + destruct Hgate as (H1 & H2 & H3). repeat split; try assumption.
    + destruct (IH r' s') as (G1 & G2 & G3 & Hrest).
      destruct Hgate as (H1 & H2 & H3).
      split; [congruence|]. split; [congruence|]. split; [congruence|].
      destruct Hscan as [H | (Hs & added & Hne & Hadd)].
      * injection H as -> ->. exact Hrest.
      * right. destruct Hrest as [-> | (Hs2 & added2 & Hne2 & Hadd2)].
        -- simpl. split; [exact Hs|]. now exists added.
        -- split; [now rewrite Hs2, Hs|].
           exists (added ++ added2). split.
           ++ destruct added; [contradiction | discriminate].
           ++ now rewrite Hadd2, Hadd, app_assoc.
Qed.

End SessionFrame.

Section SessionEdges.

Import Session Gate.

(** X9: an error-log event in which no [Logging.Entry] interface
    carries a [Message] property (in particular an event without that
    interface) changes neither the response nor the session. *)
Theorem error_log_without_message_is_ignored (url : string)
    (ifaces : list (string * DBusPropertiesMap)) (r : Response) (s : t)
    (Hnone : forall name values,
        In (name, values) ifaces -> name = loggingEntry ->
        noMessage values = true) :
  errorLogAdded url ifaces r s = (r, s).
Proof.
  induction ifaces as [|[name values] rest IH]; simpl; [reflexivity|].
  assert (IH' : errorLogAdded url rest r s = (r, s)).
  { apply IH. intros n v Hin. apply Hnone. now right. }
  destruct (String.eqb_spec name "xyz.openbmc_project.Logging.Entry")
    as [->|Hne]; [|exact IH'].
  rewrite (scanMessages_noMessage url values r s).
  - exact IH'.
  - apply (Hnone loggingEntry values); [now left | reflexivity].
Qed.

Lemma error_log_without_message_is_ignored_witness :
  errorLogAdded "/redfish/v1/UpdateService"
    [("xyz.openbmc_project.Association.Definitions", []);
     (loggingEntry, [("Id", VUint32 3%N); ("Resolved", VBool false)])]
    emptyResponse armed
  = (emptyResponse, armed).
Proof.
  apply error_log_without_message_is_ignored.
  intros name values [H | [H | []]] Hname; injection H as <- <-.
  - discriminate Hname.
  - reflexivity.
Defined.

(** X10: when the first [Message] of a [Logging.Entry] is not a
    string, the callback returns at once: nothing is written and the
    timer keeps running, whatever follows in that entry and in the
    rest of the event. *)
Theorem error_log_non_string_message_returns (url : string)
    (pre post : DBusPropertiesMap) (v : DbusVariantType)
    (rest : list (string * DBusPropertiesMap)) (r : Response) (s : t)
    (Hpre : noMessage pre = true) (Hv : get_if_string v = None) :
  errorLogAdded url ((loggingEntry, pre ++ ("Message", v) :: post) :: rest)
                r s
  = (r, s).
Proof.
  cbn [errorLogAdded]. change (String.eqb loggingEntry _) with true.
  cbv iota. rewrite (scanMessages_skip url pre _ r s Hpre).
  cbn [scanMessages]. change (String.eqb "Message" "Message") with true.
  cbn [negb]. now rewrite Hv.
Qed.

Lemma error_log_non_string_message_returns_witness :
  errorLogAdded "/redfish/v1/UpdateService"
    [(loggingEntry,
      [("Id", VUint32 3%N); ("Message", VInt64 5%Z);
       ("Message", VString alreadyExists)]);
     (loggingEntry, [("Message", VString alreadyExists)])]
    emptyResponse armed
  = (emptyResponse, armed).
Proof.
  exact (error_log_non_string_message_returns "/redfish/v1/UpdateService"
           [("Id", VUint32 3%N)] [("Message", VString alreadyExists)]
           (VInt64 5%Z)
           [(loggingEntry, [("Message", VString alreadyExists)])]
           emptyResponse armed eq_refl eq_refl).
Defined.

(** X11: the classification is total and answers each identifier
    with its own message, appended to what the response holds: the
    three image errors get [InvalidUpload] with the reason of each,
    [AlreadyExists] gets [InvalidUpload] followed by
    [ResourceAlreadyExists], [BusyFailure] gets [ResourceExhaustion],
    and every identifier outside these five gets the single
    [InternalError]. *)
Theorem classify_is_total (url type : string) (r : Response) :
  (type = "xyz.openbmc_project.Software.Image.Error.UnTarFailure" ->
   resMessages (classify url type r)
   = resMessages r ++ [InvalidUpload url "Invalid archive"]) /\
  (type = "xyz.openbmc_project.Software.Image.Error.ManifestFileFailure" ->
   resMessages (classify url type r)
   = resMessages r ++ [InvalidUpload url "Invalid manifest"]) /\
  (type = "xyz.openbmc_project.Software.Image.Error.ImageFailure" ->
   resMessages (classify url type r)
   = resMessages r ++ [InvalidUpload url "Invalid image format"]) /\
  (type = "xyz.openbmc_project.Software.Version.Error.AlreadyExists" ->
   resMessages (classify url type r)
   = resMessages r ++
     [InvalidUpload url "Image version already exists";
      ResourceAlreadyExists "UpdateService" "Version" "uploaded version"]) /\
  (type = "xyz.openbmc_project.Software.Image.Error.BusyFailure" ->
   resMessages (classify url type r)
   = resMessages r ++ [ResourceExhaustion url]) /\
  (~ In type knownErrors ->
   resMessages (classify url type r) = resMessages r ++ [InternalError]).
Proof.
  repeat split; try (intros ->; unfold classify, addMessage; simpl;
                     rewrite <- ?app_assoc; reflexivity).
  intros Hnot. unfold classify, knownErrors in *.
  repeat match goal with
         | |- context [String.eqb type ?c] =>
             destruct (String.eqb_spec type c) as [->|?]
         end;
    try reflexivity; exfalso; apply Hnot; simpl; tauto.
Qed.

Lemma classify_is_total_witness :
  resMessages (classify "/redfish/v1/UpdateService"
                 "org.example.Error.Unknown" emptyResponse)
  = [InternalError] /\
  resMessages (classify "/redfish/v1/UpdateService"
                 "xyz.openbmc_project.Software.Image.Error.BusyFailure"
                 emptyResponse)
  = [ResourceExhaustion "/redfish/v1/UpdateService"].
Proof.
  split.
  - apply (classify_is_total "/redfish/v1/UpdateService"
             "org.example.Error.Unknown" emptyResponse).
    simpl. intros H. repeat destruct H as [H|H]; try discriminate H. exact H.
  - apply (classify_is_total "/redfish/v1/UpdateService"
             "xyz.openbmc_project.Software.Image.Error.BusyFailure"
             emptyResponse).
    reflexivity.
Defined.



End SessionEdges.

(* ================================================================= *)
(** ** Further properties of the upload handlers *)

Lemma substring_all (s : string) (n : nat) :
  String.length s <= n -> substring 0 n s = s.
Proof.
  revert n. induction s as [|c s IH]; intros n Hn.
  - now destruct n.
  - destruct n as [|n]; simpl in *; [lia|]. f_equal. apply IH. lia.
Qed.

Lemma uploadImageFile_effect (io : FileIO) (body : string) (w : World) :
  files (worldOf (uploadImageFile io body w)) = files w ++ stored io body /\
  busCalls (worldOf (uploadImageFile io body w)) = busCalls w /\
  session (worldOf (uploadImageFile io body w))
  = (if streamBad io then Session.cleanUp (session w) else session w) /\
  (forall m, In m (resMessages (res w)) ->
             In m (resMessages (res (worldOf (uploadImageFile io body w))))).
Proof.
  unfold uploadImageFile. destruct io as [| |reached [|]]; simpl;
    repeat split; try tauto.
  intros m Hm. apply in_or_app. now left.
Qed.

Lemma setApplyTime_frame (a : string) (w : World) :
  files (setApplyTime a w) = files w /\
  session (setApplyTime a w) = session w.
Proof.
  unfold setApplyTime.
  destruct (String.eqb a "Immediate"); [split; reflexivity|].
  destruct (String.eqb a "OnReset"); split; reflexivity.
Qed.

Section UploadFacts.

Import Multipart Parts.

Variable param_list : string -> list (string * string).
Variable readUpdateParameters : string -> ReadResult.

Lemma justified_initial (parts : list FormPart) :
  justified param_list readUpdateParameters parts initLocals.
Proof. split; [intros data H | intros H]; discriminate H. Qed.

(** One round of the parameter loop keeps the locals justified. *)
Lemma scanParams_justified (parts : list FormPart) (p : FormPart)
    (value : string) (index : nat) (r : Response) :
  In p parts ->
  findField "Content-Disposition" (fields p) = Some value ->
  Str.find ";" value = Some index ->
  forall params l l',
    (forall q, In q params ->
       In q (param_list
               (substring index (String.length value - index) value))) ->
    justified param_list readUpdateParameters parts l ->
    scanParams readUpdateParameters (content p) params r l = Continue l' ->
    justified param_list readUpdateParameters parts l'.
Proof.
  intros Hin Hfield Hfind.
  induction params as [|[pname pvalue] rest IH]; intros l l' Hsub Hl Hscan.
  - simpl in Hscan. injection Hscan as <-. exact Hl.
  - assert (Hrest : forall q, In q rest ->
              In q (param_list
                      (substring index (String.length value - index) value))).
    { intros q Hq. apply Hsub. now right. }
    simpl in Hscan.
    destruct (String.eqb_spec pname "name") as [->|Hname]; simpl in Hscan;
      [|now apply (IH l l')].
    destruct (String.eqb pvalue EmptyString); [now apply (IH l l')|].
    assert (Hnamed : named param_list pvalue p).
    { exists value, index. repeat split; try assumption.
      apply Hsub. now left. }
    destruct (String.eqb_spec pvalue "UpdateParameters") as [->|Hp].
    + destruct (readUpdateParameters (content p))
        as [|errors|targets oat] eqn:Eread; try discriminate Hscan.
      destruct targets as [|target [|]]; try discriminate Hscan.
      destruct (String.eqb_spec target bmc) as [->|Hb];
        simpl in Hscan; [|discriminate Hscan].
      eapply IH; [exact Hrest | | exact Hscan].
      destruct Hl as [Hdata _]. split; simpl.
      * exact Hdata.
      * intros _. exists p, oat. repeat split; assumption.
    + destruct (String.eqb_spec pvalue "UpdateFile") as [->|Hf].
      * eapply IH; [exact Hrest | | exact Hscan].
        destruct Hl as [_ Htarget]. split; simpl.
        -- intros data Hd. injection Hd as <-. exists p.
           repeat split; assumption.
        -- exact Htarget.
      * now apply (IH l l').
Qed.

Lemma scanParts_justified (parts : list FormPart) (r : Response) :
  forall todo l l',
    (forall p, In p todo -> In p parts) ->
    justified param_list readUpdateParameters parts l ->
    scanParts param_list readUpdateParameters todo r l = Continue l' ->
    justified param_list readUpdateParameters parts l'.
Proof.
  induction todo as [|p rest IH]; intros l l' Hsub Hl Hscan.
  - simpl in Hscan. injection Hscan as <-. exact Hl.
  - assert (Hrest : forall q, In q rest -> In q parts).
    { intros q Hq. apply Hsub. now right. }
    simpl in Hscan.
    destruct (findField "Content-Disposition" (fields p)) as [value|] eqn:Ef;
      [|discriminate Hscan].
    destruct (Str.find ";" value) as [index|] eqn:Ei;
      [|now apply (IH l l')].
    destruct (scanParams readUpdateParameters (content p)
                (param_list
                   (substring index (String.length value - index) value))
                r l) as [l1| |] eqn:Ep; try discriminate Hscan.
    apply (IH l1 l' Hrest); [|exact Hscan].
    eapply (scanParams_justified parts p value index r
              (Hsub p (or_introl eq_refl)) Ef Ei);
      [intros q Hq; exact Hq | exact Hl | exact Ep].
Qed.

(** X13: [updateMultipartContext] reaches [uploadImageFile] only when
    the request has a part named [UpdateFile] and a part named
    [UpdateParameters] whose target list is exactly the BMC, and what
    it streams is the content of that [UpdateFile] part: the file
    holds the leading part of it that the file system took (all of it
    when the stream took at least its length).  In every other case
    nothing is written, no bus call is made and the session is left
    alone.  The session changes only through [cleanUp] after a write
    that went bad. *)
Theorem multipart_upload_requires_file_and_target (io : FileIO)
    (parts : list FormPart) (w : World) :
  let w' := worldOf (updateMultipartContext param_list readUpdateParameters
                       io parts w) in
  (files w' = files w /\ session w' = session w /\
   busCalls w' = busCalls w) \/
  (exists pf pp a,
     In pf parts /\ In pp parts /\
     named param_list "UpdateFile" pf /\
     named param_list "UpdateParameters" pp /\
     readUpdateParameters (content pp) = ReadOk [bmc] a /\
     files w' = files w ++ stored io (content pf) /\
     (forall reached bad,
        io = Streamed reached bad -> String.length (content pf) <= reached ->
        files w' = files w ++ [content pf]) /\
     session w'
     = if streamBad io then Session.cleanUp (session w) else session w).
Proof.
  unfold updateMultipartContext.
  destruct (scanParts param_list readUpdateParameters parts (res w)
              initLocals) as [l|r|] eqn:Escan; simpl;
    [|left; repeat split..].
  pose proof (scanParts_justified parts (res w) parts initLocals l
                (fun p H => H) (justified_initial parts) Escan)
    as [Hdata Htarget].
  destruct (uploadData l) as [data|] eqn:Ed; [|left; repeat split].
  destruct (targetFound l) eqn:Et; simpl; [|left; repeat split].
  right.
  destruct (Hdata data eq_refl) as (pf & Hpf & Hnf & Hcf).
  destruct (Htarget eq_refl) as (pp & a & Hpp & Hnp & Hread).
  destruct (uploadImageFile_effect io data (setApplyTime (applyTime l) w))
    as (Hfiles & _ & Hsession & _).
  destruct (setApplyTime_frame (applyTime l) w) as (Hf0 & Hs0).
  rewrite Hf0 in Hfiles. rewrite Hs0 in Hsession.
  exists pf, pp, a. rewrite Hcf.
  split; [exact Hpf|]. split; [exact Hpp|]. split; [exact Hnf|].
  split; [exact Hnp|]. split; [exact Hread|]. split; [exact Hfiles|].
  split; [|exact Hsession].
  intros reached bad -> Hlen. rewrite Hfiles. simpl.
  now rewrite substring_all.
Qed.

(** X14: a request refused as busy is handed to the file system all
    the same.  When an update is in progress, an
    [application/octet-stream] upload is answered
    [ServiceTemporarilyUnavailable], and [uploadImageFile] still runs
    on its body: the file is created and receives what the stream
    takes; if the write goes bad, [cleanUp] clears the flag of the
    update in flight. *)
Theorem busy_upload_is_still_written (io : FileIO) (req : Request)
    (w : World)
    (Htype : Str.iequals (contentType req) "application/octet-stream"
             = true)
    (Hbusy : Session.fwUpdateInProgress (session w) = true) :
  let w' := worldOf (handleUpdateServicePost param_list readUpdateParameters
                       io req w) in
  handleUpdateServicePost param_list readUpdateParameters io req w
  = uploadImageFile io (body req)
      (respond (ServiceTemporarilyUnavailable "30") w) /\
  files w' = files w ++ stored io (body req) /\
  In (ServiceTemporarilyUnavailable "30") (resMessages (res w')) /\
  session w'
  = if streamBad io then Session.cleanUp (session w) else session w.
Proof.
  intros w'.
  assert (E : handleUpdateServicePost param_list readUpdateParameters io req w
              = uploadImageFile io (body req)
                  (respond (ServiceTemporarilyUnavailable "30") w)).
  { unfold handleUpdateServicePost. rewrite Htype.
    unfold monitor, Session.monitorForSoftwareAvailable. rewrite Hbusy.
    reflexivity. }
  split; [exact E|]. subst w'. rewrite E.
  destruct (uploadImageFile_effect io (body req)
              (respond (ServiceTemporarilyUnavailable "30") w))
    as (Hfiles & _ & Hsession & Hkeep).
  split; [exact Hfiles|]. split; [|exact Hsession].
  apply Hkeep. simpl. apply in_or_app. right. now left.
Qed.

End UploadFacts.

Lemma busy_upload_is_still_written_witness :
  files (worldOf (Multipart.handleUpdateServicePost
                    Multipart.sample_param_list
                    Multipart.sample_readUpdateParameters
                    (Streamed 3 true)
                    (Multipart.mkRequest "Application/Octet-Stream"
                                         "image" None)
                    (mkWorld Session.armed emptyResponse [] [])))
  = ["ima"].
Proof.
  apply (busy_upload_is_still_written Multipart.sample_param_list
           Multipart.sample_readUpdateParameters (Streamed 3 true)
           (Multipart.mkRequest "Application/Octet-Stream" "image" None)
           (mkWorld Session.armed emptyResponse [] []));
    reflexivity.
Defined.

Section ApplyTimeFacts.

Import Multipart Parts.

Variable param_list : string -> list (string * string).
Variable readUpdateParameters : string -> ReadResult.


End ApplyTimeFacts.


Section ApplyTimeRoundTrip.

Import ApplyTime.

(** X16: [setApplyTime] accepts exactly [Immediate] and [OnReset].
    For these it queues one [RequestedApplyTime] request and writes
    nothing; the value it sends, read back by the GET handler, gives
    the same word again.  Any other word is answered
    [PropertyValueNotInList] and no request is made. *)
Theorem apply_time_round_trip (a : string) (w : World) :
  (a = "Immediate" \/ a = "OnReset" ->
   exists v,
     busCalls (setApplyTime a w)
       = busCalls w ++ [("RequestedApplyTime", [v])] /\
     res (setApplyTime a w) = res w /\
     forall r field, getHandler ec_success v r field = (r, Some a)) /\
  (a <> "Immediate" -> a <> "OnReset" ->
   busCalls (setApplyTime a w) = busCalls w /\
   res (setApplyTime a w)
     = addMessage (PropertyValueNotInList a "ApplyTime") (res w)) /\
  session (setApplyTime a w) = session w /\
  files (setApplyTime a w) = files w.
Proof.
  split; [|split; [|split]].
  - intros [-> | ->].
    + exists immediate. repeat split.
    + exists onReset. repeat split.
  - intros H1 H2. apply String.eqb_neq in H1, H2.
    unfold setApplyTime. rewrite H1, H2. split; reflexivity.
  - unfold setApplyTime.
    destruct (String.eqb a "Immediate"); [reflexivity|].
    now destruct (String.eqb a "OnReset").
  - unfold setApplyTime.
    destruct (String.eqb a "Immediate"); [reflexivity|].
    now destruct (String.eqb a "OnReset").
Qed.

Lemma apply_time_round_trip_witness :
  exists v,
    busCalls (setApplyTime "OnReset" idle) = [("RequestedApplyTime", [v])] /\
    getHandler ec_success v emptyResponse None
      = (emptyResponse, Some "OnReset").
Proof.
  destruct (apply_time_round_trip "OnReset" idle) as (Hok & _).
  destruct (Hok (or_intror eq_refl)) as (v & Hcalls & _ & Hback).
  exists v. split; [exact Hcalls | apply Hback].
Defined.

(** X17: the PATCH handler never touches the session or the image
    directory, and it makes a [setProperty] request exactly when all
    three levels of the body are present and the apply time is
    [Immediate] or [OnReset]. *)
Theorem patch_requests_only_valid_apply_time
    (pushUriOptions : Read (Read (Read string))) (w : World) :
  session (patch pushUriOptions w) = session w /\
  files (patch pushUriOptions w) = files w /\
  (busCalls (patch pushUriOptions w) <> busCalls w <->
   exists a, pushUriOptions = Present (Present (Present a)) /\
             (a = "Immediate" \/ a = "OnReset")).
Proof.
  assert (Hgrow : forall (l : list (string * list string)) x, l ++ [x] <> l).
  { intros l x H. apply (f_equal (@List.length _)) in H.
    rewrite List.length_app in H. simpl in H. lia. }
  destruct pushUriOptions as [e1| |[e2| |[e3| |a]]]; simpl;
    try (repeat split; try reflexivity;
         [intros H; now exfalso | intros (a & H & _); discriminate H]).
  unfold setApplyTime.
  destruct (String.eqb_spec a "Immediate") as [->|H1].
  { repeat split; try reflexivity.
    - intros _. exists "Immediate". split; [reflexivity | now left].
    - intros _. simpl. apply Hgrow. }
  destruct (String.eqb_spec a "OnReset") as [->|H2].
  { repeat split; try reflexivity.
    - intros _. exists "OnReset". split; [reflexivity | now right].
    - intros _. simpl. apply Hgrow. }
  repeat split; try reflexivity.
  - intros H. now exfalso.
  - intros (a' & Heq & Ha'). injection Heq as <-.
    destruct Ha'; contradiction.
Qed.

End ApplyTimeRoundTrip.

(* ================================================================= *)
(** ** Further properties of SimpleUpdate *)

Section SimpleUpdateFacts.

Import SimpleUpdate.
Local Open Scope string_scope.

Lemma find_app_first (c : ascii) (a b : string) :
  Str.find c a = None ->
  Str.find c (a ++ String c b) = Some (String.length a).
Proof.
  induction a as [|d a IH]; simpl; intros H.
  - now rewrite Ascii.eqb_refl.
  - destruct (Ascii.eqb d c); [discriminate|].
    destruct (Str.find c a); [discriminate|].
    now rewrite IH.
Qed.

Lemma substring_prefix (a b : string) :
  substring 0 (String.length a) (a ++ b) = a.
Proof. induction a as [|d a IH]; simpl; [now destruct b | now rewrite IH]. Qed.

Lemma substr_n_prefix (a b : string) :
  Str.substr_n 0 (String.length a) (a ++ b) = Some a.
Proof.
  unfold Str.substr_n. simpl. rewrite Nat.sub_0_r, length_app.
  rewrite Nat.min_l by lia. now rewrite substring_prefix.
Qed.

Lemma substr_app (a b : string) (k : nat) :
  Str.substr (String.length a + k) (a ++ b) = Str.substr k b.
Proof.
  unfold Str.substr. rewrite length_app.
  replace (String.length a + String.length b - (String.length a + k))
    with (String.length b - k) by lia.
  assert (E : (String.length a + String.length b <? String.length a + k)%nat
              = (String.length b <? k)%nat).
  { destruct (Nat.ltb_spec (String.length b) k) as [H|H].
    - apply Nat.ltb_lt. lia.
    - apply Nat.ltb_ge. lia. }
  rewrite E. destruct (String.length b <? k)%nat; [reflexivity|].
  f_equal. clear E. induction a as [|d a IH]; simpl; [reflexivity | exact IH].
Qed.

Lemma substr_all (s : string) : Str.substr 0 s = Some s.
Proof.
  unfold Str.substr. simpl. now rewrite Nat.sub_0_r, substring_whole.
Qed.

Lemma substr_three (a b c : ascii) (tail : string) :
  Str.substr 3 (String a (String b (String c tail))) = Some tail.
Proof.
  unfold Str.substr.
  assert (E : (String.length (String a (String b (String c tail))) <? 3)%nat
              = false).
  { apply Nat.ltb_ge. simpl. lia. }
  rewrite E. simpl. now rewrite Nat.sub_0_r, substring_whole.
Qed.

(** With the protocol given or derived, and no [/] in the server
    part, the URI splits at the first [/]; the file part may be
    empty. *)
Lemma split_server_file (server file : string) :
  Str.find "/" server = None ->
  splitImageURI (Some "TFTP") (server ++ String "/" file)
  = Split_ok server file.
Proof.
  intros Hs. unfold splitImageURI, deriveProtocol. simpl negb. cbv iota.
  rewrite (find_app_first "/" server file Hs).
  assert (Hlen : (String.length (server ++ String "/" file)
                  <? String.length server + 1)%nat = false).
  { apply Nat.ltb_ge. rewrite length_app. simpl. lia. }
  rewrite Hlen, substr_n_prefix, substr_app.
  unfold Str.substr. simpl. now rewrite Nat.sub_0_r, substring_whole.
Qed.

(** X18: when the protocol is embedded in the URI, any scheme that
    reads [TFTP] in upper case is accepted, the two characters after
    the colon are skipped without being looked at, and what follows
    is split at its first [/] into server and file. *)
Theorem embedded_protocol_round_trip (scheme server file : string)
    (c1 c2 : ascii)
    (Hscheme : Str.find ":" scheme = None)
    (Hupper : Str.to_upper scheme = "TFTP")
    (Hserver : Str.find "/" server = None) :
  splitImageURI None
    (scheme ++ String ":" (String c1 (String c2 (server ++ String "/" file))))
  = Split_ok server file.
Proof.
  pose proof (split_server_file server file Hserver) as Hsplit.
  unfold splitImageURI in *. unfold deriveProtocol at 1.
  rewrite (find_app_first ":" scheme _ Hscheme).
  assert (Hlen : (String.length
                    (scheme ++
                     String ":" (String c1 (String c2
                                   (server ++ String "/" file))))
                  <? String.length scheme + 1)%nat = false).
  { apply Nat.ltb_ge. rewrite length_app. simpl. lia. }
  rewrite Hlen, substr_n_prefix, substr_app, substr_three, Hupper.
  exact Hsplit.
Qed.

Lemma embedded_protocol_round_trip_witness :
  splitImageURI None "Tftp://files.example.org/fw/image.bin"
  = Split_ok "files.example.org" "fw/image.bin".
Proof.
  exact (embedded_protocol_round_trip "Tftp" "files.example.org"
           "fw/image.bin" "/" "/" eq_refl eq_refl eq_refl).
Defined.

(** X19: with [TransferProtocol] given, the handler never leaves by
    [std::out_of_range]; the protocol is compared exactly (no upper
    casing), so anything but [TFTP] is answered
    [ActionParameterNotSupported]; a URI without [/] is answered
    [ActionParameterValueTypeError]; otherwise the URI is split at its
    first [/]. *)
Theorem explicit_protocol_split (p imageURI : string) :
  splitImageURI (Some p) imageURI <> OutOfRange /\
  (p <> "TFTP" ->
   splitImageURI (Some p) imageURI
   = Rejected (ActionParameterNotSupported "TransferProtocol" action)) /\
  (p = "TFTP" -> Str.find "/" imageURI = None ->
   splitImageURI (Some p) imageURI
   = Rejected (ActionParameterValueTypeError imageURI "ImageURI" action)) /\
  (forall server file,
     p = "TFTP" -> Str.find "/" server = None ->
     imageURI = server ++ String "/" file ->
     splitImageURI (Some p) imageURI = Split_ok server file).
Proof.
  split; [|split; [|split]].
  - unfold splitImageURI, deriveProtocol.
    destruct (negb (String.eqb p "TFTP")); [discriminate|].
    destruct (Str.find "/" imageURI) as [separator|] eqn:Ef; [|discriminate].
    destruct (String.length imageURI <? separator + 1)%nat eqn:El;
      [discriminate|].
    apply Nat.ltb_ge in El.
    unfold Str.substr_n, Str.substr. simpl (_ <? 0)%nat. cbv iota.
    destruct (String.length imageURI <? separator + 1)%nat eqn:El2.
    + apply Nat.ltb_lt in El2. lia.
    + discriminate.
  - intros Hp. apply String.eqb_neq in Hp.
    unfold splitImageURI, deriveProtocol. now rewrite Hp.
  - intros -> Hf. unfold splitImageURI, deriveProtocol. simpl negb.
    cbv iota. now rewrite Hf.
  - intros server file -> Hs ->. now apply split_server_file.
Qed.

Lemma explicit_protocol_split_witness :
  splitImageURI (Some "tftp") "10.0.0.5/image.bin"
    = Rejected (ActionParameterNotSupported "TransferProtocol" action) /\
  splitImageURI (Some "TFTP") "10.0.0.5/"
    = Split_ok "10.0.0.5" EmptyString.
Proof.
  split.
  - apply (explicit_protocol_split "tftp" "10.0.0.5/image.bin").
    discriminate.
  - apply (explicit_protocol_split "TFTP" "10.0.0.5/"
             ) with (server := "10.0.0.5") (file := EmptyString);
      reflexivity.
Defined.

(** X20: an accepted SimpleUpdate request reports [Success] and asks
    for the download with the file first and the server second,
    whether or not it was admitted: from an idle session the wait is
    set up with the 600 s timeout, and when an update is in progress
    the session is left alone, [ServiceTemporarilyUnavailable] is
    reported before [Success], and the download is requested all the
    same.  No file is written by this handler. *)
Theorem simple_update_accepted (transferProtocol : option string)
    (imageURI tftpServer fwFile : string) (w : World)
    (Hsplit : splitImageURI transferProtocol imageURI
              = Split_ok tftpServer fwFile) :
  let w' := worldOf (post transferProtocol imageURI w) in
  files w' = files w /\
  busCalls w' = (busCalls w ++ [("DownloadViaTFTP", [fwFile; tftpServer])])%list
  /\
  (Session.fwUpdateInProgress (session w) = false ->
   session w' = Gate.admitted 600 /\
   resMessages (res w') = (resMessages (res w) ++ [Success])%list) /\
  (Session.fwUpdateInProgress (session w) = true ->
   session w' = session w /\
   resMessages (res w')
   = (resMessages (res w)
      ++ [ServiceTemporarilyUnavailable "30"; Success])%list).
Proof.
  unfold post. rewrite Hsplit. simpl.
  unfold monitor, Session.monitorForSoftwareAvailable.
  destruct (Session.fwUpdateInProgress (session w)); simpl;
    repeat split; intros; try discriminate; try reflexivity.
  unfold addMessageIf, addMessage. simpl. now rewrite <- app_assoc.
Qed.

Lemma simple_update_accepted_witness :
  busCalls (worldOf (post None "tftp://10.0.0.5/image.bin"
                       (mkWorld Session.armed emptyResponse [] [])))
  = [("DownloadViaTFTP", ["image.bin"; "10.0.0.5"])].
Proof.
  apply (simple_update_accepted None "tftp://10.0.0.5/image.bin"
           "10.0.0.5" "image.bin"
           (mkWorld Session.armed emptyResponse [] []) eq_refl).
Defined.

End SimpleUpdateFacts.

(* ================================================================= *)
(** ** Firmware inventory *)

Section InventoryFacts.

Import Inventory.
Local Open Scope string_scope.

Variable bmcPurpose biosPurpose : string.

Lemma find_none_rfind_none (c : ascii) (s : string) :
  Str.find c s = None -> rfind c s = None.
Proof.
  induction s as [|d s IH]; simpl; [reflexivity|].
  destruct (Ascii.eqb d c); [discriminate|].
  destruct (Str.find c s); [discriminate|].
  intros _. now rewrite IH.
Qed.

Lemma rfind_none_find_none (c : ascii) (s : string) :
  rfind c s = None -> Str.find c s = None.
Proof.
  induction s as [|d s IH]; simpl; [reflexivity|].
  destruct (rfind c s); [discriminate|].
  destruct (Ascii.eqb d c); [discriminate|].
  intros _. now rewrite IH.
Qed.

Lemma rfind_app_last (c : ascii) (a b : string) :
  Str.find c b = None ->
  rfind c (a ++ String c b) = Some (String.length a).
Proof.
  intros Hb. apply find_none_rfind_none in Hb.
  induction a as [|d a IH]; simpl.
  - now rewrite Hb, Ascii.eqb_refl.
  - now rewrite IH.
Qed.

(** The last occurrence splits the string into what precedes it and a
    rest without that character. *)
Lemma rfind_some (c : ascii) (s : string) (i : nat) :
  rfind c s = Some i ->
  exists a b, s = a ++ String c b /\ String.length a = i /\
              Str.find c b = None.
Proof.
  revert i. induction s as [|d s IH]; simpl; intros i H; [discriminate|].
  destruct (rfind c s) as [j|] eqn:Ej.
  - injection H as <-. destruct (IH j eq_refl) as (a & b & -> & <- & Hb).
    exists (String d a), b. repeat split. exact Hb.
  - destruct (Ascii.eqb_spec d c) as [->|Hne]; [|discriminate].
    injection H as <-. exists EmptyString, s. repeat split.
    now apply rfind_none_find_none.
Qed.

Lemma substr_after (c : ascii) (a b : string) :
  Str.substr (S (String.length a)) (a ++ String c b) = Some b.
Proof.
  pose proof (substr_app (a ++ String c EmptyString) b 0) as H.
  rewrite app_assoc_string, length_app in H. simpl in H.
  rewrite substr_all in H.
  replace (String.length a + 1 + 0) with (S (String.length a)) in H by lia.
  exact H.
Qed.

(** X21: for a purpose of the form [prefix.NAME] with a non-empty
    [NAME] free of dots, the callback writes [Version] and [Id], sets
    the description to [NAME image], adds the related item of the
    purpose and reports no error. *)
Theorem description_is_last_segment (prefix name version swId : string)
    (r : Resp)
    (Hname : name <> EmptyString)
    (Hdot : Str.find "." name = None) :
  softwareVersionHandler bmcPurpose biosPurpose ec_success
    (Some (Some (prefix ++ String "." name), Some version)) swId r
  = Some (getRelatedItems bmcPurpose biosPurpose (prefix ++ String "." name)
            (setDescription (name ++ " image")
               (setVersionId version swId r))).
Proof.
  unfold softwareVersionHandler. simpl ec_failed. cbv iota.
  rewrite (rfind_app_last "." prefix name Hdot).
  assert (Hlen : (String.length (prefix ++ String "." name)
                  <=? S (String.length prefix))%nat = false).
  { apply Nat.leb_gt. rewrite length_app. simpl.
    destruct name; [contradiction | simpl; lia]. }
  rewrite Hlen.
  now rewrite substr_after.
Qed.

(** The count written beside [RelatedItem] agrees with the array, or
    neither has been written yet. *)
Lemma count_consistent_addRelatedItem (odataId : string) (r : Resp) :
  jRelatedItemCount (addRelatedItem odataId r)
  = Some (List.length (jRelatedItem (addRelatedItem odataId r))).
Proof. reflexivity. Qed.

(** X22: the callback never leaves by [std::out_of_range]: the
    [substr] is guarded by the test on [endDesc].  It reports at most
    one error, and it reports none exactly when there is no bus error,
    both properties were unpacked, and the purpose has a non-empty
    last segment after a dot.  Once both properties are there,
    [Version] and [Id] are written even if the purpose is then
    refused. *)
Theorem software_version_handler_outcomes (ec : error_code)
    (unpacked : option (option string * option string)) (swId : string)
    (r : Resp) :
  exists r',
    softwareVersionHandler bmcPurpose biosPurpose ec unpacked swId r
      = Some r' /\
    (internalErrors r' = internalErrors r \/
     internalErrors r' = S (internalErrors r)) /\
    (internalErrors r' = internalErrors r <->
     ec_failed ec = false /\
     exists prefix name version,
       unpacked = Some (Some (prefix ++ String "." name), Some version) /\
       name <> EmptyString /\ Str.find "." name = None) /\
    (forall purpose version,
       ec_failed ec = false ->
       unpacked = Some (Some purpose, Some version) ->
       jVersion r' = Some version /\ jId r' = Some swId).
Proof.
  assert (Hn : forall n, n <> S n) by (intros n; lia).
  assert (Hrel : forall purpose x,
             internalErrors (getRelatedItems bmcPurpose biosPurpose purpose x)
               = internalErrors x /\
             jVersion (getRelatedItems bmcPurpose biosPurpose purpose x)
               = jVersion x /\
             jId (getRelatedItems bmcPurpose biosPurpose purpose x) = jId x).
  { intros purpose x. unfold getRelatedItems.
    destruct (String.eqb purpose bmcPurpose); [repeat split|].
    destruct (String.eqb purpose biosPurpose); repeat split. }
  unfold softwareVersionHandler.
  destruct (ec_failed ec) eqn:Eec.
  { eexists. split; [reflexivity|]. simpl. split; [now right|].
    split; [|intros ? ? H; discriminate H].
    split; [intros H; now apply eq_sym, Hn in H | intros (H & _); discriminate H]. }
  destruct unpacked as [[[purpose|] [version|]]|];
    try (eexists; split; [reflexivity|]; simpl; split; [now right|];
         split; [|intros ? ? _ H; discriminate H];
         split; [intros H; now apply eq_sym, Hn in H
                |intros (_ & ? & ? & ? & H & _); discriminate H]).
  destruct (rfind "." purpose) as [dot|] eqn:Er.
  - destruct (rfind_some _ _ _ Er) as (a & b & -> & <- & Hb).
    destruct (String.length (a ++ String "." b) <=? S (String.length a))%nat
      eqn:El.
    + eexists. split; [reflexivity|]. simpl. split; [now right|].
      split.
      * split; [intros H; now apply eq_sym, Hn in H|].
        intros (_ & prefix & name & v & Heq & Hne & Hdot).
        injection Heq as Heq _. exfalso.
        apply Nat.leb_le in El. rewrite length_app in El. simpl in El.
        assert (b = EmptyString) by (destruct b; [reflexivity | simpl in El; lia]).
        subst b.
        assert (Hr : rfind "." (prefix ++ String "." name)
                     = Some (String.length prefix))
          by now apply rfind_app_last.
        rewrite <- Heq, Er in Hr. injection Hr as Hr.
        apply (f_equal String.length) in Heq.
        rewrite !length_app in Heq. simpl in Heq.
        destruct name; [contradiction | simpl in Heq; lia].
      * intros p v _ H. injection H as <- <-. split; reflexivity.
    + apply Nat.leb_gt in El. rewrite length_app in El. simpl in El.
      rewrite substr_after.
      eexists. split; [reflexivity|].
      match goal with
      | |- context [getRelatedItems _ _ ?p ?x] =>
          destruct (Hrel p x) as (He & Hv & Hi)
      end.
      rewrite He, Hv, Hi. simpl. split; [now left|]. split.
      * split; [|reflexivity]. intros _. split; [reflexivity|].
        exists a, b, version. repeat split; [|exact Hb].
        intros ->. simpl in El. lia.
      * intros p v _ H. injection H as <- <-. split; reflexivity.
  - eexists. split; [reflexivity|]. simpl. split; [now right|]. split.
    + split; [intros H; now apply eq_sym, Hn in H|].
      intros (_ & prefix & name & v & Heq & Hne & Hdot).
      injection Heq as -> _.
      rewrite (rfind_app_last "." prefix name Hdot) in Er. discriminate Er.
    + intros p v _ H. injection H as <- <-. split; reflexivity.
Qed.

End InventoryFacts.

Section InventoryClosed.

Import Inventory Related.
Local Open Scope string_scope.

Lemma description_is_last_segment_witness :
  softwareVersionHandler purposeBMC purposeHost ec_success
    (Some (Some purposeBMC, Some "2.14.0")) "1a2b" emptyResp
  = Some (mkResp 0 [] (Some "2.14.0") (Some "1a2b") (Some "BMC image")
                 ["/redfish/v1/Managers/bmc"] (Some 1)
                 None None None None).
Proof.
  refine (description_is_last_segment purposeBMC purposeHost
            "xyz.openbmc_project.Software.Version.VersionPurpose" "BMC"
            "2.14.0" "1a2b" emptyResp _ eq_refl).
  discriminate.
Defined.

End InventoryClosed.

Section InventoryCount.

Import Inventory Related.
Local Open Scope string_scope.

Variable bmcPurpose biosPurpose : string.

(** One run of the callback leaves the related items alone or adds
    one of the two known links and rewrites the count. *)
Lemma handler_related (ec : error_code)
    (unpacked : option (option string * option string)) (swId : string)
    (r r' : Resp) :
  softwareVersionHandler bmcPurpose biosPurpose ec unpacked swId r = Some r' ->
  (jRelatedItem r' = jRelatedItem r /\
   jRelatedItemCount r' = jRelatedItemCount r) \/
  exists odataId,
    (odataId = "/redfish/v1/Managers/bmc" \/
     odataId = "/redfish/v1/Systems/system/Bios") /\
    jRelatedItem r' = (jRelatedItem r ++ [odataId])%list /\
    jRelatedItemCount r'
    = Some (List.length (jRelatedItem r ++ [odataId])%list).
Proof.
  unfold softwareVersionHandler.
  destruct (ec_failed ec); [intros H; injection H as <-; now left|].
  destruct unpacked as [[[purpose|] [version|]]|];
    try (intros H; injection H as <-; now left).
  destruct (rfind "." purpose) as [dot|];
    [|intros H; injection H as <-; now left].
  destruct (String.length purpose <=? S dot)%nat;
    [intros H; injection H as <-; now left|].
  destruct (Str.substr (S dot) purpose) as [formatDesc|]; [|discriminate].
  intros H. injection H as <-. unfold getRelatedItems.
  destruct (String.eqb purpose bmcPurpose).
  { right. exists "/redfish/v1/Managers/bmc". repeat split. now left. }
  destruct (String.eqb purpose biosPurpose).
  { right. exists "/redfish/v1/Systems/system/Bios". repeat split.
    now right. }
  now left.
Qed.

(** X23: the callback keeps [RelatedItem@odata.count] equal to the
    size of [RelatedItem]: if they agree before (or neither is
    written), they agree after, also when several objects answer for
    one id and the callback runs once for each.  Each run adds at
    most one item, the link of the BMC or of the BIOS. *)
Theorem related_items_stay_counted (ec : error_code)
    (unpacked : option (option string * option string)) (swId : string)
    (r r' : Resp)
    (Hcount : countConsistent r)
    (Hrun : softwareVersionHandler bmcPurpose biosPurpose ec unpacked swId r
            = Some r') :
  countConsistent r' /\
  exists extra,
    jRelatedItem r' = (jRelatedItem r ++ extra)%list /\
    List.length extra <= 1 /\
    forall x, In x extra ->
              x = "/redfish/v1/Managers/bmc" \/
              x = "/redfish/v1/Systems/system/Bios".
Proof.
  destruct (handler_related ec unpacked swId r r' Hrun)
    as [(Hi & Hc) | (odataId & Hid & Hi & Hc)].
  - split.
    + unfold countConsistent. rewrite Hi, Hc. exact Hcount.
    + exists []. rewrite app_nil_r. repeat split; [exact Hi | simpl; lia |].
      intros x [].
  - split.
    + left. now rewrite Hc, Hi.
    + exists [odataId]. repeat split; [exact Hi | simpl; lia |].
      intros x [<- | []]. exact Hid.
Qed.

End InventoryCount.

Section InventorySubTree.

Import Inventory Related.
Local Open Scope string_scope.

(** The loop is a filter: it sets [found] when some object matches and
    queues one query per matching object, in order. *)
Lemma scanSubTree_filter (swId : string) (subtree : SubTree) :
  forall found queries,
    scanSubTree swId subtree found queries
    = (found || existsb (matches swId) subtree,
       (queries ++ flat_map queryOf (filter (matches swId) subtree))%list).
Proof.
  induction subtree as [|[path services] rest IH]; intros found queries.
  - simpl. now rewrite orb_false_r, app_nil_r.
  - cbn [scanSubTree existsb filter]. unfold matches at 1 3. cbn [fst snd].
    destruct (Str.ends_with path swId); cbn [negb andb orb].
    + destruct services as [|[service ifs] more].
      * rewrite IH. reflexivity.
      * rewrite IH. cbn [flat_map queryOf snd fst]. simpl app.
        rewrite orb_true_r. now rewrite <- app_assoc.
    + rewrite IH. reflexivity.
Qed.

Lemma filter_none {A : Type} (f : A -> bool) (l : list A) :
  existsb f l = false -> filter f l = [].
Proof.
  induction l as [|x rest IH]; simpl; [reflexivity|].
  intros H. apply orb_false_iff in H as [H1 H2].
  rewrite H1. now apply IH.
Qed.

(** X24: the inventory route answers for every object whose path ends
    with the requested id and that has an owning service: for each of
    them, in the order of the subtree, the version is asked from its
    first service.  The match is by string suffix, so an id that is
    the tail of a longer id selects both objects.  When nothing
    matches, [ResourceMissingAtURI] is reported, no query is made and
    the static members are not written; on a bus error only
    [InternalError] is reported. *)
Theorem inventory_answers_for_suffix_matches (subtree : SubTree)
    (swId : string) (r : Resp) :
  snd (fst (subTreeHandler ec_success subtree swId r))
    = flat_map queryOf (filter (matches swId) subtree) /\
  (existsb (matches swId) subtree = false ->
   subTreeHandler ec_success subtree swId r
   = (resourceMissingAtURI swId r, [], false)) /\
  (existsb (matches swId) subtree = true ->
   fst (fst (subTreeHandler ec_success subtree swId r)) = setStatics r /\
   snd (subTreeHandler ec_success subtree swId r) = true) /\
  (forall p service ifs more,
     In ((p ++ swId)%string, (service, ifs) :: more) subtree ->
     In (service, (p ++ swId)%string)
        (snd (fst (subTreeHandler ec_success subtree swId r)))) /\
  (forall ec, ec_failed ec = true ->
     subTreeHandler ec subtree swId r = (internalError r, [], false)).
Proof.
  unfold subTreeHandler. simpl ec_failed. cbv iota.
  rewrite scanSubTree_filter. simpl orb. simpl app.
  assert (Hq : snd (fst (if negb (existsb (matches swId) subtree)
                         then (resourceMissingAtURI swId r,
                               flat_map queryOf
                                 (filter (matches swId) subtree), false)
                         else (setStatics r,
                               flat_map queryOf
                                 (filter (matches swId) subtree), true)))
               = flat_map queryOf (filter (matches swId) subtree)).
  { now destruct (existsb (matches swId) subtree). }
  split; [exact Hq|]. split; [|split; [|split]].
  - intros Hnone. rewrite Hnone. simpl. repeat f_equal.
    now rewrite (filter_none _ _ Hnone).
  - intros Hsome. rewrite Hsome. split; reflexivity.
  - intros p service ifs more Hin. rewrite Hq.
    apply in_flat_map.
    exists ((p ++ swId)%string, (service, ifs) :: more). split.
    + apply filter_In. split; [exact Hin|].
      unfold matches. cbn [fst snd]. now rewrite ends_with_app.
    + now left.
  - intros ec Hec. now rewrite Hec.
Qed.

Lemma inventory_answers_for_suffix_matches_witness :
  snd (fst (subTreeHandler ec_success sampleSubTree "1a2b" emptyResp))
  = [("xyz.openbmc_project.Software.BMC.Updater",
      "/xyz/openbmc_project/software/1a2b");
     ("xyz.openbmc_project.Software.Host.Updater",
      "/xyz/openbmc_project/software/771a2b")] /\
  subTreeHandler ec_success sampleSubTree "c0ffee" emptyResp
  = (resourceMissingAtURI "c0ffee" emptyResp, [], false).
Proof.
  destruct (inventory_answers_for_suffix_matches sampleSubTree "1a2b"
              emptyResp) as (Hq & _).
  destruct (inventory_answers_for_suffix_matches sampleSubTree "c0ffee"
              emptyResp) as (_ & Hmiss & _).
  split; [exact Hq | apply Hmiss; reflexivity].
Defined.

End InventorySubTree.

Lemma related_items_stay_counted_witness :
  Related.countConsistent
    (Inventory.mkResp 0 [] (Some "v2") (Some "1a2b") (Some "Host image")
       ["/redfish/v1/Managers/bmc"; "/redfish/v1/Systems/system/Bios"]
       (Some 2) None None None None).
Proof.
  refine (proj1 (related_items_stay_counted
                   Inventory.purposeBMC Inventory.purposeHost ec_success
                   (Some (Some Inventory.purposeHost, Some "v2")) "1a2b"
                   (Inventory.mkResp 0 [] (Some "v1") (Some "1a2b")
                      (Some "BMC image") ["/redfish/v1/Managers/bmc"]
                      (Some 1) None None None None)
                   _ _ eq_refl)).
  left. reflexivity.
Defined.
